(** * RSA blind signatures: message owner and signer

    Shallow embedding of [blind_signature/message_owner.py] (class
    [MessageOwner]) and [blind_signature/RSAbased_blind_signature/signer.py]
    (function [generate_rsa_keys], class [Signer]).

    Python integers are unbounded, so they are [Z]; [%] and [//] are the
    floor operations [Z.modulo] and [Z.div] once the divisor is known to be
    non-zero.  Exceptions are values of [result].  The interpreter's
    recursion limit is a resource bound and is not part of the model. *)

From Stdlib Require Import ZArith List Lia Bool String Strings.Byte.
From Stdlib Require Import Zmod.
From Equations Require Import Equations.
Import ListNotations.

Local Open Scope Z_scope.

(** ** Python values and exceptions *)

Module Py.

(** The exception classes the code can raise, with their message. *)
Inductive exn : Type :=
| ValueError (msg : string)
| ZeroDivisionError (msg : string).

(** Outcome of a call: a value, a raised exception, or a loop that is
    still running when the iteration budget of the model is used up. *)
Inductive result (A : Type) : Type :=
| Ok (a : A)
| Raise (e : exn)
| OutOfFuel.
Arguments Ok {A} a.
Arguments Raise {A} e.
Arguments OutOfFuel {A}.

Definition bind {A B : Type} (c : result A) (k : A -> result B) : result B :=
  match c with
  | Ok a => k a
  | Raise e => Raise e
  | OutOfFuel => OutOfFuel
  end.

(** [a % b] *)
Definition mod_ (a b : Z) : result Z :=
  if b =? 0 then Raise (ZeroDivisionError "integer modulo by zero")
  else Ok (a mod b).

(** Three-argument [pow(base, exp, mod)].  A negative exponent asks for
    the inverse of the base modulo [mod] (Python 3.8 and later). *)
Definition pow (base exp md : Z) : result Z :=
  if md =? 0 then Raise (ValueError "pow() 3rd argument cannot be 0")
  else if exp <? 0 then
    if Z.gcd base md =? 1
    then Ok (Z.invmod base md ^ (- exp) mod md)
    else Raise (ValueError "base is not invertible for the given modulus")
  else Ok (base ^ exp mod md).

(** The random source: the stream of raw draws still to come. *)
Definition rng : Type := nat -> Z.

Definition rng_tail (g : rng) : rng := fun i => g (S i).

Fixpoint rng_drop (n : nat) (g : rng) : rng :=
  match n with
  | O => g
  | S n' => rng_drop n' (rng_tail g)
  end.

(** [random.randint(a, b)]: some integer of [a..b], picked by the source;
    an empty range is a [ValueError]. *)
Definition randint (a b : Z) (g : rng) : result (Z * rng) :=
  if b <? a then Raise (ValueError "empty range for randrange()")
  else Ok (a + g O mod (b - a + 1), rng_tail g).

(** [Crypto.Util.number.bytes_to_long]: big-endian unsigned value. *)
Definition bytes_to_long (bs : list byte) : Z :=
  fold_left (fun acc b => acc * 256 + Z.of_N (Byte.to_N b)) bs 0.

(** A message is a [str] or a [bytes] object.  A [str] is kept as its
    UTF-8 text, so [str.encode()] lists its bytes. *)
Inductive message : Type :=
| Str (s : string)
| Bytes (b : list byte).

Definition encode (s : string) : list byte := list_byte_of_string s.

End Py.

Import Py.

Declare Scope py_scope.
Delimit Scope py_scope with py.
Notation "x <- c ;; k" := (bind c (fun x => k))
  (at level 61, c at next level, right associativity) : py_scope.
Notation "' pat <- c ;; k" := (bind c (fun x => match x with pat => k end))
  (at level 61, pat pattern, c at next level, right associativity) : py_scope.
Local Open Scope py_scope.

(** ** Termination order of the Euclidean recursions *)

Definition abs_lt (x y : Z) : Prop := Z.abs x < Z.abs y.

Lemma abs_lt_wf : well_founded abs_lt.
Proof.
  apply (well_founded_lt_compat Z (fun z => Z.abs_nat z)).
  unfold abs_lt. intros x y H. lia.
Qed.

(** The accessibility proof is guarded so that closed calls evaluate. *)
#[local] Instance abs_lt_WellFounded : WellFounded abs_lt :=
  Acc_intro_generator 64 abs_lt_wf.
Opaque abs_lt_WellFounded.

Lemma abs_lt_mod (a b : Z) : b <> 0 -> abs_lt (a mod b) b.
Proof.
  intros Hb. unfold abs_lt.
  pose proof (Z.mod_bound_or a b Hb). lia.
Qed.

(** ** message_owner.py *)

Module MessageOwner.

(** [self.e, self.N = signer_public_key] *)
Record t : Type := new { e : Z; N : Z }.

(** The dictionary returned by [blind_message]. *)
Record blind_data : Type := {
  blinded_msg : Z;
  r : Z;
  original_hash : Z
}.

(** [_gcd]: [while b: a, b = b, a % b] then [return a]. *)
Equations _gcd (a b : Z) : Z by wf b abs_lt :=
  _gcd a b with Z.eq_dec b 0 => {
    | left _ := a;
    | right Hb := _gcd b (a mod b) }.
Next Obligation. apply abs_lt_mod; assumption. Qed.

(** [_egcd]: recursive extended Euclid; [b // a] and [b % a] are only
    reached with [a != 0]. *)
Equations _egcd (a b : Z) : Z * Z * Z by wf a abs_lt :=
  _egcd a b with Z.eq_dec a 0 => {
    | left _ := (b, 0, 1);
    | right Ha :=
        let '(g, y, x) := _egcd (b mod a) a in
        (g, x - (b / a) * y, y) }.
Next Obligation. apply abs_lt_mod; assumption. Qed.

Definition _modinv (a m : Z) : result Z :=
  let '(g, x, y) := _egcd a m in
  if negb (g =? 1) then Raise (ValueError "Modular inverse does not exist")
  else mod_ x m.

(** The [while True] loop that samples the blinding factor; [fuel]
    bounds the iterations the model follows. *)
Fixpoint sample_r (fuel : nat) (self : t) (g : rng) : result (Z * rng) :=
  match fuel with
  | O => OutOfFuel
  | S fuel' =>
      '(r, g') <- randint 2 (N self - 1) g ;;
      if _gcd r (N self) =? 1 then Ok (r, g')
      else sample_r fuel' self g'
  end.

Definition unblind_signature (self : t) (blinded_signature r : Z)
    : result Z :=
  r_inv <- _modinv r (N self) ;;
  mod_ (blinded_signature * r_inv) (N self).

Section WithHash.

(** [SHA256.new(message).digest()] of PyCryptodome. *)
Variable SHA256 : list byte -> list byte.

(** [if isinstance(message, str): message = message.encode()], then
    [m = bytes_to_long(SHA256.new(message).digest())]. *)
Definition digest (message : message) : Z :=
  let message :=
    match message with
    | Str s => encode s
    | Bytes b => b
    end in
  bytes_to_long (SHA256 message).

(** [blind_message(self, message, r=None)] *)
Definition blind_message (fuel : nat) (self : t) (message : message)
    (r : option Z) (g : rng) : result (blind_data * rng) :=
  let m := digest message in
  '(r, g) <- match r with
             | None => sample_r fuel self g
             | Some r => Ok (r, g)
             end ;;
  p <- pow r (e self) (N self) ;;
  blinded <- mod_ (m * p) (N self) ;;
  Ok ({| blinded_msg := blinded; r := r; original_hash := m |}, g).

Definition verify (self : t) (message : message) (signature : Z)
    : result bool :=
  let m := digest message in
  lhs <- pow signature (e self) (N self) ;;
  rhs <- mod_ m (N self) ;;
  Ok (lhs =? rhs).

End WithHash.

End MessageOwner.

(** ** RSAbased_blind_signature/signer.py *)

Module Signer.

(** [self.d, self.N = private_key] *)
Record t : Type := new { d : Z; N : Z }.

Definition sign_blinded (self : t) (blinded_message : Z) : result Z :=
  pow blinded_message (d self) (N self).

End Signer.

Section KeyGeneration.

(** [Crypto.Util.number.getPrime(n)]: a random [n]-bit prime, drawn from
    the random source. *)
Variable getPrime : Z -> rng -> result (Z * rng).

(** [Crypto.Util.number.inverse(u, v)]: the inverse of [u] modulo [v]. *)
Variable inverse : Z -> Z -> result Z.

(** [generate_rsa_keys(key_size=1024)] returns
    [((e, N), (d, N))]. *)
Definition generate_rsa_keys (key_size : Z) (g : rng)
    : result ((Z * Z) * (Z * Z) * rng) :=
  let e := 65537 in
  '(p, g) <- getPrime (key_size / 2) g ;;
  '(q, g) <- getPrime (key_size / 2) g ;;
  let N := p * q in
  let phi := (p - 1) * (q - 1) in
  d <- inverse e phi ;;
  Ok ((e, N), (d, N), g).

End KeyGeneration.

Definition default_key_size : Z := 1024.

(** ** Vocabulary of the specification *)

(** The failure of [_modinv], which the specification calls
    [NoInverseError]. *)
Definition NoInverseError : exn :=
  ValueError "Modular inverse does not exist".

(** Euler's totient, by counting. *)
Definition totient (n : Z) : Z :=
  Z.of_nat (List.length
    (filter (fun k => Z.gcd k n =? 1) (map Z.of_nat (seq 1 (Z.to_nat n))))).

(** A valid key pair: [N] is the product of two distinct primes, the
    exponents are positive integers and [e * d] is 1 modulo the totient
    of [N]. *)
Definition valid_keypair (e d N : Z) : Prop :=
  exists p q : Z,
    Z.prime p /\ Z.prime q /\ p <> q /\ N = p * q /\
    0 < e /\ 0 < d /\ (e * d) mod totient N = 1.


(** The value that the [i]-th call [random.randint(2, N - 1)] returns. *)
Definition draw (N : Z) (g : rng) (i : nat) : Z := 2 + g i mod (N - 2).

(** Draw number [k] is the first one coprime to [N]. *)
Definition first_coprime (N : Z) (g : rng) (k : nat) : Prop :=
  Z.gcd (draw N g k) N = 1 /\
  forall i : nat, (i < k)%nat -> Z.gcd (draw N g i) N <> 1.

(** What the specification asks of the modular inverse that key generation
    calls, on the positive arguments it is called with. *)
Definition inverse_spec (inverse : Z -> Z -> result Z) : Prop :=
  forall u v : Z, 0 < u -> 0 < v -> Z.gcd u v = 1 ->
    exists x : Z, inverse u v = Ok x /\ 0 <= x < v /\ (u * x) mod v = 1 mod v.

(** ** The protocol run

    The three phases of the scripts, chained: the owner blinds, the signer
    signs, the owner unblinds ([blind_sign_unblind]) and verifies
    ([round_trip]). *)

Section Protocol.

Variable SHA256 : list byte -> list byte.



End Protocol.

(** ** Worked example: the key pair [e = 3], [d = 7], [N = 3 * 11] *)

Definition owner33 : MessageOwner.t := MessageOwner.new 3 33.
Definition signer33 : Signer.t := Signer.new 7 33.

(** A stand-in for the hash in worked examples: the message itself. *)
Definition id_hash (bs : list byte) : list byte := bs.

(** A source whose draws are all the same. *)
Definition const_rng (z : Z) : rng := fun _ => z.

(** A source that yields the listed values, then zeros. *)
Definition list_rng (l : list Z) : rng := fun i => nth i l 0.

(** Modelled from the spec: [Crypto.Util.number.getPrime] is a library
    function outside the sources; it returns a prime picked by its random
    source.  Here it hands out the next value of the source, whatever the
    bit length asked for. *)
Definition next_prime (_ : Z) (g : rng) : result (Z * rng) :=
  Ok (g O, rng_tail g).

(** Modelled from the spec: [Crypto.Util.number.inverse] is a library
    function outside the sources; the specification describes it as
    [mod_inverse], which returns the inverse in [0..m-1] and fails when
    [gcd(a, m) <> 1].  The repository's own [_modinv] is taken for it. *)
Definition lib_inverse (u v : Z) : result Z := MessageOwner._modinv u v.

(** Trial division, used to establish the primality of concrete numbers:
    no [n], [n + 1], ... whose square is at most [p] divides [p]. *)
Fixpoint no_divisor_from (fuel : nat) (n p : Z) : bool :=
  match fuel with
  | O => true
  | S fuel' =>
      if p <? n * n then true
      else if p mod n =? 0 then false
      else no_divisor_from fuel' (n + 1) p
  end.

Definition prime_check (p : Z) : bool :=
  (1 <? p) && no_divisor_from (Z.to_nat p) 2 p.

(** The record of a [blind_message] result, without the random source. *)
Definition fmap_blind (c : result (MessageOwner.blind_data * rng))
    : result MessageOwner.blind_data :=
  '(blind_data, _) <- c ;; Ok blind_data.

(** The second half of the negative-verification property, as the
    specification words it: a signature accepted for one message is rejected
    for every other message. *)
Definition altered_message_rejected (SHA256 : list byte -> list byte)
    (e N : Z) : Prop :=
  forall (message message' : message) (s : Z),
    MessageOwner.verify SHA256 (MessageOwner.new e N) message s = Ok true ->
    message' <> message ->
    MessageOwner.verify SHA256 (MessageOwner.new e N) message' s = Ok false.

(** The two keys of a [generate_rsa_keys] result, without the random
    source. *)
Definition fmap_keys (c : result ((Z * Z) * (Z * Z) * rng))
    : result ((Z * Z) * (Z * Z)) :=
  '(public_key, private_key, _) <- c ;; Ok (public_key, private_key).

(** ** The scripts of message_owner.py and signer.py

    [run_message_owner_phase1], [run_signer] and
    [run_message_owner_phase2] hand values to each other through three JSON
    files and report on the standard output.  The state they act on is the
    content of these files, the lines printed so far and the random source.
    A file holds the document that the scripts write to it (integers, and
    a two-element list for a key, which [json.load] returns for a tuple); a
    file of another shape is outside the model. *)

Module Script.

(** A printed line: the pieces of the f-string, the interpolated values not
    yet rendered as text. *)
Inductive piece : Type :=
| Text (s : string)
| Num (z : Z)
| Flag (b : bool).

Definition line : Type := list piece.

(** The line feed that starts some of the messages. *)
Definition nl : string := String (Ascii.ascii_of_N 10) EmptyString.

(** The document of [blind_data.json]. *)
Record blind_data_json : Type := {
  blinded_msg : Z;
  public_key : Z * Z;
  _secret_r : Z;
  _original_hash : Z
}.

(** The three files, each absent or holding its document:
    [blind_data.json], [signer_private_key.json] (key [private_key]) and
    [blind_signature.json] (key [blind_signature]). *)
Record files : Type := {
  blind_data_file : option blind_data_json;
  signer_private_key_file : option (Z * Z);
  blind_signature_file : option Z
}.

Record world : Type := {
  disk : files;
  stdout : list line;
  random : rng
}.

(** What stops a script: an exception of the arithmetic, or [open] on a
    file that does not exist. *)
Inductive error : Type :=
| Exn (e : exn)
| FileNotFoundError (path : string).

(** A script ends, stops on an uncaught exception, or is still running; the
    state reached is kept in each case. *)
Inductive outcome (A : Type) : Type :=
| Done (a : A) (w : world)
| Crash (e : error) (w : world)
| Running (w : world).
Arguments Done {A} a w.
Arguments Crash {A} e w.
Arguments Running {A} w.

(** The state a run has reached. *)
Definition world_of {A : Type} (o : outcome A) : world :=
  match o with
  | Done _ w => w
  | Crash _ w => w
  | Running w => w
  end.

Definition io (A : Type) : Type := world -> outcome A.

Definition ret {A : Type} (a : A) : io A := fun w => Done a w.

Definition bind {A B : Type} (c : io A) (k : A -> io B) : io B :=
  fun w =>
    match c w with
    | Done a w' => k a w'
    | Crash e w' => Crash e w'
    | Running w' => Running w'
    end.

(** [print(...)] *)
Definition print (l : line) : io unit :=
  fun w =>
    Done tt {| disk := disk w; stdout := stdout w ++ [l]; random := random w |}.

(** [with open(path, 'r') as f: json.load(f)] *)
Definition load {A : Type} (path : string) (file : files -> option A)
    : io A :=
  fun w =>
    match file (disk w) with
    | Some document => Done document w
    | None => Crash (FileNotFoundError path) w
    end.

(** [with open(path, 'w') as f: json.dump(..., f)] *)
Definition dump (write : files -> files) : io unit :=
  fun w =>
    Done tt {| disk := write (disk w); stdout := stdout w; random := random w |}.

(** A call that cannot touch the files or the output. *)
Definition call {A : Type} (c : result A) : io A :=
  fun w =>
    match c with
    | Ok a => Done a w
    | Raise e => Crash (Exn e) w
    | OutOfFuel => Running w
    end.

(** A call that draws from the random source. *)
Definition call_random {A : Type} (c : rng -> result (A * rng)) : io A :=
  fun w =>
    match c (random w) with
    | Ok (a, g) =>
        Done a {| disk := disk w; stdout := stdout w; random := g |}
    | Raise e => Crash (Exn e) w
    | OutOfFuel => Running w
    end.

Declare Scope io_scope.
Delimit Scope io_scope with io.
Notation "x <- c ;; k" := (bind c (fun x => k))
  (at level 61, c at next level, right associativity) : io_scope.
Notation "' pat <- c ;; k" := (bind c (fun x => match x with pat => k end))
  (at level 61, pat pattern, c at next level, right associativity) : io_scope.
Notation "c ;; k" := (bind c (fun _ => k))
  (at level 61, right associativity) : io_scope.

Definition original_message : string := "This is my secret vote: Candidate A".

Section WithLibraries.

Variable SHA256 : list byte -> list byte.
Variable getPrime : Z -> rng -> result (Z * rng).
Variable inverse : Z -> Z -> result Z.

Local Open Scope io_scope.

(** message_owner.py, [run_message_owner_phase1()]; [fuel] bounds the
    iterations of the sampling loop that the model follows. *)
Definition run_message_owner_phase1 (fuel : nat) : io unit :=
  '(public_key, private_key) <-
    call_random (generate_rsa_keys getPrime inverse default_key_size) ;;
  let owner := MessageOwner.new (fst public_key) (snd public_key) in
  print [Text (nl ++ "=== Message Owner Phase 1: Create Blinded Message ===")] ;;
  print [Text "Original message: "; Text original_message] ;;
  blind_data <-
    call_random
      (MessageOwner.blind_message SHA256 fuel owner (Str original_message)
         None) ;;
  print [Text (nl ++ "Blinding complete. Results:")] ;;
  print [Text "Blinded message: "; Num (MessageOwner.blinded_msg blind_data)] ;;
  print [Text "Blinding factor r: "; Num (MessageOwner.r blind_data);
         Text " (secret)"] ;;
  print [Text "Original hash: "; Num (MessageOwner.original_hash blind_data);
         Text " (for reference)"] ;;
  dump (fun d =>
    {| blind_data_file :=
         Some {| blinded_msg := MessageOwner.blinded_msg blind_data;
                 public_key := public_key;
                 _secret_r := MessageOwner.r blind_data;
                 _original_hash := MessageOwner.original_hash blind_data |};
       signer_private_key_file := signer_private_key_file d;
       blind_signature_file := blind_signature_file d |}) ;;
  dump (fun d =>
    {| blind_data_file := blind_data_file d;
       signer_private_key_file := Some private_key;
       blind_signature_file := blind_signature_file d |}) ;;
  print [Text (nl ++ "Saved blind_data.json for signer to process")] ;;
  print [Text "Note: The blinding factor r is stored locally for phase 2"].

(** message_owner.py, [run_message_owner_phase2()] *)
Definition run_message_owner_phase2 : io unit :=
  blind_data <- load "blind_data.json" blind_data_file ;;
  let r := _secret_r blind_data in
  let public_key := public_key blind_data in
  blind_signature <- load "blind_signature.json" blind_signature_file ;;
  let owner := MessageOwner.new (fst public_key) (snd public_key) in
  print [Text (nl ++ "=== Message Owner Phase 2: Unblind Signature ===")] ;;
  print [Text "Received blind signature: "; Num blind_signature] ;;
  final_signature <-
    call (MessageOwner.unblind_signature owner blind_signature r) ;;
  print [Text (nl ++ "Unblinded signature: "); Num final_signature] ;;
  is_valid <-
    call (MessageOwner.verify SHA256 owner (Str original_message)
            final_signature) ;;
  print [Text (nl ++ "Verification results:")] ;;
  print [Text "Signature is valid: "; Flag is_valid].

(** signer.py, [run_signer()] *)
Definition run_signer : io unit :=
  print [Text (nl ++ "=== Signer Process ===")] ;;
  private_key <- load "signer_private_key.json" signer_private_key_file ;;
  print [Text "Using RSA keys:"] ;;
  print [Text "Public key (e, N): ("; Num (fst private_key); Text ", ";
         Num (snd private_key); Text ")"] ;;
  print [Text "Private key (d, N): (hidden)"] ;;
  data <- load "blind_data.json" blind_data_file ;;
  let blinded_msg := blinded_msg data in
  print [Text (nl ++ "Received blinded message: "); Num blinded_msg] ;;
  let signer := Signer.new (fst private_key) (snd private_key) in
  blind_signature <- call (Signer.sign_blinded signer blinded_msg) ;;
  print [Text (nl ++ "Created blind signature: "); Num blind_signature] ;;
  dump (fun d =>
    {| blind_data_file := blind_data_file d;
       signer_private_key_file := signer_private_key_file d;
       blind_signature_file := Some blind_signature |}) ;;
  print [Text (nl ++ "Saved blind_signature.json for message owner to process")].

(** message_owner.py run as a script: [phase2] as first argument selects
    the second phase. *)
Definition message_owner_main (fuel : nat) (argv : list string) : io unit :=
  match argv with
  | _ :: arg :: _ =>
      if String.eqb arg "phase2" then run_message_owner_phase2
      else run_message_owner_phase1 fuel
  | _ => run_message_owner_phase1 fuel
  end.

End WithLibraries.

End Script.

(** ** What the scripts print and leave behind *)

(** The lines of a complete first phase. *)
Definition phase1_lines (bd : MessageOwner.blind_data)
    : list Script.line :=
  [[Script.Text
      (Script.nl ++ "=== Message Owner Phase 1: Create Blinded Message ===")];
   [Script.Text "Original message: "; Script.Text Script.original_message];
   [Script.Text (Script.nl ++ "Blinding complete. Results:")];
   [Script.Text "Blinded message: ";
    Script.Num (MessageOwner.blinded_msg bd)];
   [Script.Text "Blinding factor r: "; Script.Num (MessageOwner.r bd);
    Script.Text " (secret)"];
   [Script.Text "Original hash: ";
    Script.Num (MessageOwner.original_hash bd);
    Script.Text " (for reference)"];
   [Script.Text (Script.nl ++ "Saved blind_data.json for signer to process")];
   [Script.Text "Note: The blinding factor r is stored locally for phase 2"]].

(** The state after a first phase that drew the keys [(e, N)] and [(d, N)]
    and the blinding record [bd]. *)
Definition after_phase1 (w : Script.world) (e d N : Z)
    (bd : MessageOwner.blind_data) (g : rng) : Script.world :=
  {| Script.disk :=
       {| Script.blind_data_file :=
            Some {| Script.blinded_msg := MessageOwner.blinded_msg bd;
                    Script.public_key := (e, N);
                    Script._secret_r := MessageOwner.r bd;
                    Script._original_hash := MessageOwner.original_hash bd |};
          Script.signer_private_key_file := Some (d, N);
          Script.blind_signature_file :=
            Script.blind_signature_file (Script.disk w) |};
     Script.stdout := Script.stdout w ++ phase1_lines bd;
     Script.random := g |}.

(** The lines of a complete signer run with the key [(d, N)]. *)
Definition signer_lines (d N blinded_msg blind_signature : Z)
    : list Script.line :=
  [[Script.Text (Script.nl ++ "=== Signer Process ===")];
   [Script.Text "Using RSA keys:"];
   [Script.Text "Public key (e, N): ("; Script.Num d; Script.Text ", ";
    Script.Num N; Script.Text ")"];
   [Script.Text "Private key (d, N): (hidden)"];
   [Script.Text (Script.nl ++ "Received blinded message: ");
    Script.Num blinded_msg];
   [Script.Text (Script.nl ++ "Created blind signature: ");
    Script.Num blind_signature];
   [Script.Text
      (Script.nl ++ "Saved blind_signature.json for message owner to process")]].

(** The state after a signer run that produced [blind_signature]. *)
Definition after_signer (w : Script.world) (d N blinded_msg : Z)
    (blind_signature : Z) : Script.world :=
  {| Script.disk :=
       {| Script.blind_data_file := Script.blind_data_file (Script.disk w);
          Script.signer_private_key_file :=
            Script.signer_private_key_file (Script.disk w);
          Script.blind_signature_file := Some blind_signature |};
     Script.stdout :=
       Script.stdout w ++ signer_lines d N blinded_msg blind_signature;
     Script.random := Script.random w |}.

(** The lines of a complete second phase. *)
Definition phase2_lines (blind_signature final_signature : Z)
    (is_valid : bool) : list Script.line :=
  [[Script.Text (Script.nl ++ "=== Message Owner Phase 2: Unblind Signature ===")];
   [Script.Text "Received blind signature: "; Script.Num blind_signature];
   [Script.Text (Script.nl ++ "Unblinded signature: ");
    Script.Num final_signature];
   [Script.Text (Script.nl ++ "Verification results:")];
   [Script.Text "Signature is valid: "; Script.Flag is_valid]].

(** The same state with more lines on the output. *)
Definition with_lines (w : Script.world) (ls : list Script.line)
    : Script.world :=
  {| Script.disk := Script.disk w;
     Script.stdout := Script.stdout w ++ ls;
     Script.random := Script.random w |}.


(** A state in which the first phase of the worked example has left its
    two files. *)
Definition example_world : Script.world :=
  {| Script.disk :=
       {| Script.blind_data_file :=
            Some {| Script.blinded_msg := 7;
                    Script.public_key := (3, 33);
                    Script._secret_r := 2;
                    Script._original_hash := 5 |};
          Script.signer_private_key_file := Some (7, 33);
          Script.blind_signature_file := None |};
     Script.stdout := [];
     Script.random := const_rng 0 |}.

(** ** Bytes, hexadecimal text and random bytes *)

From Stdlib Require Import Ascii.

Module PyBytes.

(** The sixteen digits that [bytes.hex()] writes. *)
Definition hex_digit (n : N) : ascii :=
  match n with
  | 0 => "0" | 1 => "1" | 2 => "2" | 3 => "3" | 4 => "4" | 5 => "5"
  | 6 => "6" | 7 => "7" | 8 => "8" | 9 => "9" | 10 => "a" | 11 => "b"
  | 12 => "c" | 13 => "d" | 14 => "e" | _ => "f"
  end%N%char.

(** [bytes.hex()]: two lower-case digits for each byte. *)
Fixpoint hex (bs : list byte) : string :=
  match bs with
  | [] => EmptyString
  | b :: bs' =>
      String (hex_digit (Byte.to_N b / 16)%N)
        (String (hex_digit (Byte.to_N b mod 16)%N) (hex bs'))
  end.

(** The value of a hexadecimal digit, in either case. *)
Definition digit_value (c : ascii) : option N :=
  let n := Ascii.N_of_ascii c in
  (if (48 <=? n) && (n <=? 57) then Some (n - 48)
   else if (97 <=? n) && (n <=? 102) then Some (n - 87)
   else if (65 <=? n) && (n <=? 70) then Some (n - 55)
   else None)%N.

(** ASCII white space: space, tab, line feed, vertical tab, form feed and
    carriage return. *)
Definition is_space (c : ascii) : bool :=
  let n := Ascii.N_of_ascii c in
  ((n =? 32) || ((9 <=? n) && (n <=? 13)))%N.

Definition byte_of_digits (top bot : N) : byte :=
  Ascii.byte_of_ascii (Ascii.ascii_of_N (top * 16 + bot)%N).

Definition fromhex_error : exn :=
  ValueError "non-hexadecimal number found in fromhex() arg".

(** [bytes.fromhex(s)]: white space is skipped before each byte, then two
    digits are read; anything else is a [ValueError] (whose message also
    gives the position). *)
Fixpoint fromhex (s : string) : result (list byte) :=
  match s with
  | EmptyString => Ok []
  | String c s' =>
      if is_space c then fromhex s'
      else
        match digit_value c, s' with
        | Some top, String c' s'' =>
            match digit_value c' with
            | Some bot =>
                bind (fromhex s'')
                  (fun bs => Ok (byte_of_digits top bot :: bs))
            | None => Raise fromhex_error
            end
        | _, _ => Raise fromhex_error
        end
  end.

(** [random.randbytes(n)]: [n] bytes from the source, here one draw for
    each byte. *)
Fixpoint randbytes (n : nat) (g : rng) : list byte * rng :=
  match n with
  | O => ([], g)
  | S n' =>
      let '(bs, g') := randbytes n' (rng_tail g) in
      (Ascii.byte_of_ascii (Ascii.ascii_of_N (Z.to_N (g O mod 256))) :: bs,
       g')
  end.

(** What [str(e)] gives for an exception. *)
Definition exn_message (e : exn) : string :=
  match e with
  | ValueError msg => msg
  | ZeroDivisionError msg => msg
  end.

End PyBytes.

(** ** Dilithiumbased_blind_signature: message_owner.py and signer.py

    The [Dilithium] object of the library is a parameter: its signing and
    verifying functions, which may raise.  Keys and signatures are bytes or,
    where the callers pass them so, hexadecimal text. *)

Module Dilithium.

(** The dictionary returned by [blind_message]. *)
Record blind_data : Type := {
  blinded_msg : string;
  r : string;
  original_message : string;
  message_hash : string
}.

(** [if isinstance(x, str): x = bytes.fromhex(x)] *)
Definition bytes_of (x : Py.message) : result (list byte) :=
  match x with
  | Str s => PyBytes.fromhex s
  | Bytes b => Ok b
  end.

(** [if isinstance(message, str): message = message.encode()] *)
Definition encoded (message : Py.message) : list byte :=
  match message with
  | Str s => encode s
  | Bytes b => b
  end.

Section WithLibrary.

Variable SHA256 : list byte -> list byte.

(** [dilithium.sign_with_input(sk, message)] *)
Variable sign_with_input : list byte -> list byte -> result (list byte).

(** [dilithium.verify(pk, message, signature)] *)
Variable lib_verify : Py.message -> list byte -> Py.message -> result bool.

(** [MessageOwner.blind_message(message, r=None)], with [r] a bytes
    object when it is given. *)
Definition blind_message (message : Py.message) (r : option (list byte))
    (g : rng) : blind_data * rng :=
  let message := encoded message in
  let m := SHA256 message in
  let '(r, g) :=
    match r with
    | None => PyBytes.randbytes 32 g
    | Some r => (r, g)
    end in
  let blinded := m ++ r in
  ({| blinded_msg := PyBytes.hex blinded;
      r := PyBytes.hex r;
      original_message := PyBytes.hex message;
      message_hash := PyBytes.hex m |}, g).

(** [MessageOwner.unblind_signature(blinded_signature, r)] *)
Definition unblind_signature {A B : Type} (blinded_signature : A) (r : B)
    : A :=
  blinded_signature.

(** The [try] around the library's [verify]: an exception is printed and
    turned into [False].  The result comes with the lines printed. *)
Definition try_verify (c : result bool) : result (bool * list Script.line) :=
  match c with
  | Ok b => Ok (b, [])
  | Raise e =>
      Ok (false,
          [[Script.Text "Verification error: ";
            Script.Text (PyBytes.exn_message e)]])
  | OutOfFuel => OutOfFuel
  end.

(** [MessageOwner.verify_blind_signature(original_message, signature, r)] *)
Definition verify_blind_signature (signer_public_key : Py.message)
    (original_message : Py.message) (signature : Py.message) (r : Py.message)
    : result (bool * list Script.line) :=
  let original_message := encoded original_message in
  r <- bytes_of r ;;
  signature <- bytes_of signature ;;
  let m := SHA256 original_message in
  let blinded_message := m ++ r in
  try_verify (lib_verify signer_public_key blinded_message (Bytes signature)).

(** [MessageOwner.verify(message, signature)] *)
Definition verify (signer_public_key : Py.message) (message : Py.message)
    (signature : Py.message) : result (bool * list Script.line) :=
  let message := encoded message in
  try_verify (lib_verify signer_public_key message signature).

(** [Signer.sign_blinded(blinded_message)] *)
Definition sign_blinded (private_key : list byte)
    (blinded_message : Py.message) : result (list byte) :=
  blinded_message <- bytes_of blinded_message ;;
  sign_with_input private_key blinded_message.

End WithLibrary.

End Dilithium.

(** ** A stand-in library for worked examples *)

(** Equality of byte strings. *)
Fixpoint bytes_eqb (a b : list byte) : bool :=
  match a, b with
  | [], [] => true
  | x :: a', y :: b' => Byte.eqb x y && bytes_eqb a' b'
  | _, _ => false
  end.

(** A signature scheme with no security at all: the signature of a message
    is the key followed by the message, and the public key is the private
    key. *)
Definition echo_sign (sk m : list byte) : result (list byte) :=
  Ok (sk ++ m).

Definition echo_verify (pk : Py.message) (m : list byte) (sig : Py.message)
    : result bool :=
  match pk, sig with
  | Bytes pk, Bytes sig => Ok (bytes_eqb sig (pk ++ m))
  | _, _ => Raise (ValueError "bytes expected")
  end.

(** A hash with digests of 32 bytes: the first 32 bytes of the message,
    padded with zeros. *)
Definition short_hash (bs : list byte) : list byte :=
  firstn 32 (bs ++ repeat "000"%byte 32).

(** ** The scripts of the Dilithium variant

    [setup_signer_keys], [run_message_owner_phase1], [run_signer] and
    [run_message_owner_phase2] hand hexadecimal text to each other through
    four JSON files.  The state is the content of these files, the lines
    printed, the source of the [random] module and that of [os.urandom].
    A file holds the document the scripts write to it, its values any
    text; a file of another shape is outside the model. *)

Module DilithiumScript.

Import Script(piece, Text, Num, Flag, line, nl, error, Exn, FileNotFoundError).

(** The document of [blind_data.json]. *)
Record blind_data_json : Type := {
  blinded_msg : string;
  public_key : string;
  _secret_r : string;
  _original_message : string
}.

(** The four files, each absent or holding its document:
    [signer_public_key.json] (key [public_key]),
    [signer_private_key.json] (key [private_key]), [blind_data.json] and
    [blind_signature.json] (key [blind_signature]). *)
Record files : Type := {
  signer_public_key_file : option string;
  signer_private_key_file : option string;
  blind_data_file : option blind_data_json;
  blind_signature_file : option string
}.

Record world : Type := {
  disk : files;
  stdout : list line;
  random : rng;
  urandom : rng
}.

(** A script ends, stops on an uncaught exception, or is still running; the
    state reached is kept in each case. *)
Inductive outcome (A : Type) : Type :=
| Done (a : A) (w : world)
| Crash (e : error) (w : world)
| Running (w : world).
Arguments Done {A} a w.
Arguments Crash {A} e w.
Arguments Running {A} w.

Definition io (A : Type) : Type := world -> outcome A.

Definition ret {A : Type} (a : A) : io A := fun w => Done a w.

Definition bind {A B : Type} (c : io A) (k : A -> io B) : io B :=
  fun w =>
    match c w with
    | Done a w' => k a w'
    | Crash e w' => Crash e w'
    | Running w' => Running w'
    end.

(** Lines reaching the output, in order. *)
Definition emit (ls : list line) : io unit :=
  fun w =>
    Done tt {| disk := disk w; stdout := stdout w ++ ls; random := random w;
               urandom := urandom w |}.

(** [print(...)] *)
Definition print (l : line) : io unit := emit [l].

(** [with open(path, 'r') as f: json.load(f)] *)
Definition load {A : Type} (path : string) (file : files -> option A)
    : io A :=
  fun w =>
    match file (disk w) with
    | Some document => Done document w
    | None => Crash (FileNotFoundError path) w
    end.

(** The same inside [try: ... except FileNotFoundError:]. *)
Definition try_load {A : Type} (file : files -> option A) : io (option A) :=
  fun w => Done (file (disk w)) w.

(** [with open(path, 'w') as f: json.dump(..., f)] *)
Definition dump (write : files -> files) : io unit :=
  fun w =>
    Done tt {| disk := write (disk w); stdout := stdout w;
               random := random w; urandom := urandom w |}.

(** A call that cannot touch the files or the output. *)
Definition call {A : Type} (c : result A) : io A :=
  fun w =>
    match c with
    | Ok a => Done a w
    | Raise e => Crash (Exn e) w
    | OutOfFuel => Running w
    end.

(** A call that draws from the source of the [random] module. *)
Definition call_random {A : Type} (c : rng -> A * rng) : io A :=
  fun w =>
    let '(a, g) := c (random w) in
    Done a {| disk := disk w; stdout := stdout w; random := g;
              urandom := urandom w |}.

(** [os.urandom(n)] *)
Definition os_urandom (n : nat) : io (list byte) :=
  fun w =>
    let '(bs, g) := PyBytes.randbytes n (urandom w) in
    Done bs {| disk := disk w; stdout := stdout w; random := random w;
               urandom := g |}.

Declare Scope dio_scope.
Delimit Scope dio_scope with dio.
Notation "x <- c ;; k" := (bind c (fun x => k))
  (at level 61, c at next level, right associativity) : dio_scope.
Notation "' pat <- c ;; k" := (bind c (fun x => match x with pat => k end))
  (at level 61, pat pattern, c at next level, right associativity) : dio_scope.
Notation "c ;; k" := (bind c (fun _ => k))
  (at level 61, right associativity) : dio_scope.

Definition original_message : string := "This is my secret vote: Candidate A".

Section WithLibraries.

Variable SHA256 : list byte -> list byte.

(** [dilithium.keygen(key_seed)] *)
Variable keygen : list byte -> result (list byte * list byte).

Variable sign_with_input : list byte -> list byte -> result (list byte).
Variable lib_verify : Py.message -> list byte -> Py.message -> result bool.

Local Open Scope dio_scope.

(** signer.py, [generate_dilithium_keys()] *)
Definition generate_dilithium_keys : io (list byte * list byte) :=
  key_seed <- os_urandom 32 ;;
  call (keygen key_seed).

(** signer.py, [setup_signer_keys()] *)
Definition setup_signer_keys : io (list byte * list byte) :=
  print [Text "=== Generating Signer Keys ==="] ;;
  '(pk, sk) <- generate_dilithium_keys ;;
  dump (fun d =>
    {| signer_public_key_file := Some (PyBytes.hex pk);
       signer_private_key_file := signer_private_key_file d;
       blind_data_file := blind_data_file d;
       blind_signature_file := blind_signature_file d |}) ;;
  dump (fun d =>
    {| signer_public_key_file := signer_public_key_file d;
       signer_private_key_file := Some (PyBytes.hex sk);
       blind_data_file := blind_data_file d;
       blind_signature_file := blind_signature_file d |}) ;;
  print [Text "Public key: "; Text (PyBytes.hex pk)] ;;
  print [Text "Keys saved to signer_public_key.json and signer_private_key.json"] ;;
  ret (pk, sk).

(** signer.py, [run_signer()] *)
Definition run_signer : io unit :=
  print [Text (nl ++ "=== Signer Process ===")] ;;
  key_data <- load "signer_private_key.json" signer_private_key_file ;;
  private_key <- call (PyBytes.fromhex key_data) ;;
  print [Text "Using Dilithium keys"] ;;
  data <- load "blind_data.json" blind_data_file ;;
  let blinded_msg := blinded_msg data in
  print [Text (nl ++ "Received blinded message: "); Text blinded_msg] ;;
  blind_signature <-
    call (Dilithium.sign_blinded sign_with_input private_key
            (Str blinded_msg)) ;;
  print [Text (nl ++ "Created blind signature: ");
         Text (PyBytes.hex blind_signature)] ;;
  dump (fun d =>
    {| signer_public_key_file := signer_public_key_file d;
       signer_private_key_file := signer_private_key_file d;
       blind_data_file := blind_data_file d;
       blind_signature_file := Some (PyBytes.hex blind_signature) |}) ;;
  print [Text (nl ++ "Saved blind_signature.json for message owner to process")].

(** signer.py run as a script: [setup] as first argument generates the
    keys. *)
Definition signer_main (argv : list string) : io unit :=
  match argv with
  | _ :: arg :: _ =>
      if String.eqb arg "setup" then setup_signer_keys ;; ret tt
      else run_signer
  | _ => run_signer
  end.

(** message_owner.py, [run_message_owner_phase1()] *)
Definition run_message_owner_phase1 : io unit :=
  key_data <- try_load signer_public_key_file ;;
  match key_data with
  | None =>
      print [Text "Error: signer_public_key.json not found!"] ;;
      print [Text "Please run 'python signer.py setup' first to generate signer keys."]
  | Some public_key =>
      print [Text (nl ++ "=== Message Owner Phase 1: Create Blinded Message ===")] ;;
      print [Text "Original message: "; Text original_message] ;;
      blind_data <-
        call_random
          (Dilithium.blind_message SHA256 (Str original_message) None) ;;
      print [Text (nl ++ "Blinding complete. Results:")] ;;
      print [Text "Blinded message: ";
             Text (Dilithium.blinded_msg blind_data)] ;;
      print [Text "Blinding factor r: "; Text (Dilithium.r blind_data);
             Text " (secret)"] ;;
      print [Text "Original message: ";
             Text (Dilithium.original_message blind_data);
             Text " (for reference)"] ;;
      dump (fun d =>
        {| signer_public_key_file := signer_public_key_file d;
           signer_private_key_file := signer_private_key_file d;
           blind_data_file :=
             Some {| blinded_msg := Dilithium.blinded_msg blind_data;
                     public_key := public_key;
                     _secret_r := Dilithium.r blind_data;
                     _original_message :=
                       Dilithium.original_message blind_data |};
           blind_signature_file := blind_signature_file d |}) ;;
      print [Text (nl ++ "Saved blind_data.json for signer to process")] ;;
      print [Text "Note: The blinding factor r is stored locally for phase 2"]
  end.

(** message_owner.py, [run_message_owner_phase2()] *)
Definition run_message_owner_phase2 : io unit :=
  blind_data <- load "blind_data.json" blind_data_file ;;
  r <- call (PyBytes.fromhex (_secret_r blind_data)) ;;
  public_key <- call (PyBytes.fromhex (public_key blind_data)) ;;
  let original_message_hex := _original_message blind_data in
  signature_data <- load "blind_signature.json" blind_signature_file ;;
  blind_signature <- call (PyBytes.fromhex signature_data) ;;
  print [Text (nl ++ "=== Message Owner Phase 2: Unblind Signature ===")] ;;
  print [Text "Received blind signature: ";
         Text (PyBytes.hex blind_signature)] ;;
  let final_signature := Dilithium.unblind_signature blind_signature r in
  print [Text (nl ++ "Final signature: ");
         Text (PyBytes.hex final_signature)] ;;
  original_message <- call (PyBytes.fromhex original_message_hex) ;;
  '(is_valid, printed) <-
    call (Dilithium.verify_blind_signature SHA256 lib_verify
            (Bytes public_key) (Bytes original_message)
            (Bytes final_signature) (Bytes r)) ;;
  emit printed ;;
  print [Text (nl ++ "Validation results:")] ;;
  print [Text "Signature is valid: "; Flag is_valid].

(** message_owner.py run as a script: [phase2] as first argument selects
    the second phase. *)
Definition message_owner_main (argv : list string) : io unit :=
  match argv with
  | _ :: arg :: _ =>
      if String.eqb arg "phase2" then run_message_owner_phase2
      else run_message_owner_phase1
  | _ => run_message_owner_phase1
  end.

End WithLibraries.

End DilithiumScript.

(** The same state with more lines on the output. *)
Definition with_output (w : DilithiumScript.world) (ls : list Script.line)
    : DilithiumScript.world :=
  {| DilithiumScript.disk := DilithiumScript.disk w;
     DilithiumScript.stdout := DilithiumScript.stdout w ++ ls;
     DilithiumScript.random := DilithiumScript.random w;
     DilithiumScript.urandom := DilithiumScript.urandom w |}.

(** A state with no file and nothing printed. *)
Definition empty_world (g u : rng) : DilithiumScript.world :=
  {| DilithiumScript.disk :=
       {| DilithiumScript.signer_public_key_file := None;
          DilithiumScript.signer_private_key_file := None;
          DilithiumScript.blind_data_file := None;
          DilithiumScript.blind_signature_file := None |};
     DilithiumScript.stdout := [];
     DilithiumScript.random := g;
     DilithiumScript.urandom := u |}.

(** A key generation for the stand-in library: the seed is both keys. *)
Definition echo_keygen (seed : list byte) : result (list byte * list byte) :=
  Ok (seed, seed).

(** ** What the scripts of the Dilithium variant print and leave behind *)

Module DilithiumRun.

Import DilithiumScript.

(** The lines of a complete key setup. *)
Definition setup_lines (pk : list byte) : list Script.line :=
  [[Script.Text "=== Generating Signer Keys ==="];
   [Script.Text "Public key: "; Script.Text (PyBytes.hex pk)];
   [Script.Text
      "Keys saved to signer_public_key.json and signer_private_key.json"]].

(** The state after a key setup that generated [(pk, sk)]. *)
Definition after_setup (w : world) (pk sk : list byte) : world :=
  {| disk :=
       {| signer_public_key_file := Some (PyBytes.hex pk);
          signer_private_key_file := Some (PyBytes.hex sk);
          blind_data_file := blind_data_file (disk w);
          blind_signature_file := blind_signature_file (disk w) |};
     stdout := stdout w ++ setup_lines pk;
     random := random w;
     urandom := rng_drop 32 (urandom w) |}.

(** The record [blind_message] returns for the message of the scripts and
    the blinding factor [factor]. *)
Definition blinding (SHA256 : list byte -> list byte) (factor : list byte)
    : Dilithium.blind_data :=
  {| Dilithium.blinded_msg :=
       PyBytes.hex (SHA256 (encode original_message) ++ factor);
     Dilithium.r := PyBytes.hex factor;
     Dilithium.original_message := PyBytes.hex (encode original_message);
     Dilithium.message_hash := PyBytes.hex (SHA256 (encode original_message)) |}.

(** The lines of a complete first phase. *)
Definition phase1_lines (bd : Dilithium.blind_data) : list Script.line :=
  [[Script.Text
      (Script.nl ++ "=== Message Owner Phase 1: Create Blinded Message ===")];
   [Script.Text "Original message: "; Script.Text original_message];
   [Script.Text (Script.nl ++ "Blinding complete. Results:")];
   [Script.Text "Blinded message: "; Script.Text (Dilithium.blinded_msg bd)];
   [Script.Text "Blinding factor r: "; Script.Text (Dilithium.r bd);
    Script.Text " (secret)"];
   [Script.Text "Original message: ";
    Script.Text (Dilithium.original_message bd);
    Script.Text " (for reference)"];
   [Script.Text (Script.nl ++ "Saved blind_data.json for signer to process")];
   [Script.Text "Note: The blinding factor r is stored locally for phase 2"]].

(** The state after a first phase that read the key text [public_key] and
    made the blinding record [bd]. *)
Definition after_phase1 (w : world) (public_key : string)
    (bd : Dilithium.blind_data) : world :=
  {| disk :=
       {| signer_public_key_file := signer_public_key_file (disk w);
          signer_private_key_file := signer_private_key_file (disk w);
          blind_data_file :=
            Some {| blinded_msg := Dilithium.blinded_msg bd;
                    DilithiumScript.public_key := public_key;
                    _secret_r := Dilithium.r bd;
                    _original_message := Dilithium.original_message bd |};
          blind_signature_file := blind_signature_file (disk w) |};
     stdout := stdout w ++ phase1_lines bd;
     random := rng_drop 32 (random w);
     urandom := urandom w |}.

(** The lines of a complete signer run. *)
Definition signer_lines (blinded_msg : string) (blind_signature : list byte)
    : list Script.line :=
  [[Script.Text (Script.nl ++ "=== Signer Process ===")];
   [Script.Text "Using Dilithium keys"];
   [Script.Text (Script.nl ++ "Received blinded message: ");
    Script.Text blinded_msg];
   [Script.Text (Script.nl ++ "Created blind signature: ");
    Script.Text (PyBytes.hex blind_signature)];
   [Script.Text
      (Script.nl ++ "Saved blind_signature.json for message owner to process")]].

(** The state after a signer run that produced [blind_signature]. *)
Definition after_signer (w : world) (blinded_msg : string)
    (blind_signature : list byte) : world :=
  {| disk :=
       {| signer_public_key_file := signer_public_key_file (disk w);
          signer_private_key_file := signer_private_key_file (disk w);
          blind_data_file := blind_data_file (disk w);
          blind_signature_file := Some (PyBytes.hex blind_signature) |};
     stdout := stdout w ++ signer_lines blinded_msg blind_signature;
     random := random w;
     urandom := urandom w |}.

(** The lines of a complete second phase, [printed] being what the
    verification printed. *)
Definition phase2_lines (blind_signature : list byte)
    (printed : list Script.line) (is_valid : bool) : list Script.line :=
  [[Script.Text (Script.nl ++ "=== Message Owner Phase 2: Unblind Signature ===")];
   [Script.Text "Received blind signature: ";
    Script.Text (PyBytes.hex blind_signature)];
   [Script.Text (Script.nl ++ "Final signature: ");
    Script.Text (PyBytes.hex blind_signature)]]
  ++ printed
  ++ [[Script.Text (Script.nl ++ "Validation results:")];
      [Script.Text "Signature is valid: "; Script.Flag is_valid]].

(** The lines of a first phase that finds no public key. *)
Definition no_key_lines : list Script.line :=
  [[Script.Text "Error: signer_public_key.json not found!"];
   [Script.Text
      "Please run 'python signer.py setup' first to generate signer keys."]].

End DilithiumRun.

(** * Properties *)

(** ** Python arithmetic *)

Lemma mod_nonzero (a b : Z) : b <> 0 -> mod_ a b = Ok (a mod b).
Proof.
  intros Hb. unfold mod_.
  destruct (Z.eqb_spec b 0) as [E | _]; [contradiction | reflexivity].
Qed.

Lemma pow_nonneg (base exp md : Z) :
  0 <= exp -> md <> 0 -> pow base exp md = Ok (base ^ exp mod md).
Proof.
  intros He Hm. unfold pow.
  destruct (Z.eqb_spec md 0) as [E | _]; [contradiction |].
  destruct (Z.ltb_spec exp 0) as [L | _]; [lia | reflexivity].
Qed.

Lemma bytes_to_long_from (bs : list byte) (acc : Z) :
  0 <= acc ->
  0 <= fold_left (fun acc b => acc * 256 + Z.of_N (Byte.to_N b)) bs acc.
Proof.
  revert acc. induction bs as [| b bs IH]; intros acc Hacc; simpl.
  - exact Hacc.
  - apply IH. lia.
Qed.

Lemma bytes_to_long_nonneg (bs : list byte) : 0 <= bytes_to_long bs.
Proof. apply bytes_to_long_from. lia. Qed.

(** ** The Euclidean helpers *)

Import MessageOwner.

Lemma _gcd_abs (a b : Z) : Z.abs (_gcd a b) = Z.gcd a b.
Proof.
  funelim (_gcd a b).
  - subst b. rewrite Z.gcd_0_r. reflexivity.
  - rewrite H, (Z.gcd_comm b), Z.gcd_mod by assumption.
    apply Z.gcd_comm.
Qed.

Lemma _gcd_sign (a b : Z) : 0 <= a -> 0 <= b -> 0 <= _gcd a b.
Proof.
  funelim (_gcd a b); intros Ha Hb'.
  - exact Ha.
  - apply H; [exact Hb' |]. apply Z.mod_pos_bound. lia.
Qed.

Lemma _gcd_nonneg (a b : Z) : 0 <= a -> 0 <= b -> _gcd a b = Z.gcd a b.
Proof.
  intros Ha Hb. rewrite <- _gcd_abs.
  symmetry. apply Z.abs_eq. apply _gcd_sign; assumption.
Qed.

Lemma _egcd_bezout (a b : Z) :
  let '(g, x, y) := _egcd a b in a * x + b * y = g.
Proof.
  funelim (_egcd a b).
  - subst a. lia.
  - destruct (_egcd (b mod a) a) as [[g y] x].
    pose proof (Z.div_mod b a Ha). nia.
Qed.

Lemma _egcd_abs (a b : Z) : Z.abs (fst (fst (_egcd a b))) = Z.gcd a b.
Proof.
  funelim (_egcd a b).
  - subst a. symmetry. apply Z.gcd_0_l.
  - destruct (_egcd (b mod a) a) as [[g y] x]. simpl in *.
    rewrite H. apply Z.gcd_mod. assumption.
Qed.

Lemma _egcd_sign (a b : Z) :
  0 <= a -> 0 <= b -> 0 <= fst (fst (_egcd a b)).
Proof.
  funelim (_egcd a b); intros Ha' Hb.
  - exact Hb.
  - destruct (_egcd (b mod a) a) as [[g y] x]. simpl in *.
    apply H; [| exact Ha']. apply Z.mod_pos_bound. lia.
Qed.


(** ** Modular inverse *)

Lemma _modinv_ok (a m : Z) :
  0 <= a -> 0 < m -> Z.gcd a m = 1 ->
  exists x : Z,
    _modinv a m = Ok x /\ 0 <= x < m /\ (a * x) mod m = 1 mod m.
Proof.
  intros Ha Hm Hg. unfold _modinv.
  pose proof (_egcd_bezout a m) as Hbez.
  pose proof (_egcd_abs a m) as Habs.
  pose proof (_egcd_sign a m Ha ltac:(lia)) as Hsgn.
  destruct (_egcd a m) as [[g x] y]. cbn [fst] in Habs, Hsgn.
  assert (g = 1) as -> by lia.
  cbn [Z.eqb Pos.eqb negb]. rewrite mod_nonzero by lia.
  exists (x mod m). split; [reflexivity |].
  split; [apply Z.mod_pos_bound; lia |].
  rewrite Z.mul_mod_idemp_r by lia.
  replace (a * x) with (1 + (- y) * m) by lia.
  apply Z.mod_add. lia.
Qed.

Lemma _modinv_not_coprime (a m : Z) :
  Z.gcd a m <> 1 -> _modinv a m = Raise NoInverseError.
Proof.
  intros Hg. unfold _modinv.
  pose proof (_egcd_abs a m) as Habs.
  destruct (_egcd a m) as [[g x] y]. cbn [fst] in Habs.
  destruct (Z.eqb_spec g 1) as [-> | _]; [| reflexivity].
  simpl in Habs. congruence.
Qed.


(** ** The RSA identity *)

Lemma pow_fermat_mult (p x k : Z) :
  Z.prime p -> 0 <= k -> x ^ (1 + k * (p - 1)) mod p = x mod p.
Proof.
  intros Hp Hk. pose proof (Z.prime_ge_2 p Hp) as Hp2.
  rewrite Z.pow_add_r, Z.pow_1_r by nia.
  rewrite (Z.mul_comm k), Z.pow_mul_r by lia.
  destruct (Z.eq_dec (x mod p) 0) as [Z0 | NZ].
  - rewrite <- Z.mul_mod_idemp_l, Z0 by lia. reflexivity.
  - rewrite <- Z.mul_mod_idemp_r, <- Z.mod_pow_l by lia.
    rewrite (Z.fermat_nz p x Hp NZ), Z.pow_1_l by lia.
    rewrite Z.mul_mod_idemp_r by lia. f_equal. lia.
Qed.

Lemma mod_eq_of_two_primes (p q a b : Z) :
  Z.prime p -> Z.prime q -> p <> q ->
  a mod p = b mod p -> a mod q = b mod q -> a mod (p * q) = b mod (p * q).
Proof.
  intros Hp Hq Hpq Ep Eq.
  pose proof (Z.prime_ge_2 p Hp). pose proof (Z.prime_ge_2 q Hq).
  assert (Hdp : (p | a - b)).
  { apply Z.mod_divide; [lia |]. rewrite Zminus_mod, Ep, Z.sub_diag. reflexivity. }
  assert (Hdq : (q | a - b)).
  { apply Z.mod_divide; [lia |]. rewrite Zminus_mod, Eq, Z.sub_diag. reflexivity. }
  assert (Hc : Z.gcd p q = 1).
  { apply Z.coprime_prime_l; [exact Hp |].
    intros Hd. apply (Z.divide_prime_prime p q Hp Hq) in Hd. contradiction. }
  assert (Hd : (p * q | a - b)).
  { destruct Hdp as [u Hu]. rewrite Hu in Hdq |- *.
    rewrite (Z.mul_comm u p) in Hdq |- *.
    apply Z.mul_divide_mono_l.
    apply (Z.gauss q p u); [exact Hdq |].
    rewrite Z.gcd_comm. exact Hc. }
  destruct Hd as [w Hw].
  replace a with (b + w * (p * q)) by lia.
  apply Z.mod_add. nia.
Qed.

(** ** The totient of a product of two primes *)

Lemma div_succ (c n : Z) :
  0 < c -> 0 <= n ->
  (n + 1) / c = n / c + (if (n + 1) mod c =? 0 then 1 else 0).
Proof.
  intros Hc Hn.
  pose proof (Z.div_mod n c ltac:(lia)) as Hdm.
  pose proof (Z.mod_pos_bound n c Hc) as Hr.
  destruct (Z.eq_dec (n mod c) (c - 1)) as [E | NE].
  - assert (Hmod : (n + 1) mod c = 0).
    { symmetry. apply (Z.mod_unique_pos _ _ (n / c + 1)); lia. }
    rewrite Hmod. cbn [Z.eqb].
    symmetry. apply (Z.div_unique_pos _ _ _ 0); lia.
  - assert (Hmod : (n + 1) mod c = n mod c + 1).
    { symmetry. apply (Z.mod_unique_pos _ _ (n / c)); lia. }
    rewrite Hmod. destruct (Z.eqb_spec (n mod c + 1) 0) as [E | _]; [lia |].
    symmetry. apply (Z.div_unique_pos _ _ _ (n mod c + 1)); lia.
Qed.

Lemma count_multiples (c : Z) (n : nat) :
  0 < c ->
  Z.of_nat (List.length
    (filter (fun k => k mod c =? 0) (map Z.of_nat (seq 1 n)))) =
  Z.of_nat n / c.
Proof.
  intros Hc. induction n as [| n IH].
  - reflexivity.
  - rewrite seq_S, map_app, filter_app, length_app, Nat2Z.inj_add, IH.
    cbn [map filter Nat.add].
    rewrite Nat2Z.inj_succ, <- Z.add_1_r, (div_succ c (Z.of_nat n)) by lia.
    destruct (Z.eqb_spec ((Z.of_nat n + 1) mod c) 0); reflexivity.
Qed.

Lemma count_two_filters (A : Type) (a b : A -> bool) (l : list A) :
  (List.length (filter (fun x => negb (a x) && negb (b x)) l) +
   List.length (filter a l) + List.length (filter b l) =
   List.length l + List.length (filter (fun x => a x && b x) l))%nat.
Proof.
  induction l as [| x l IH]; [reflexivity |].
  cbn [filter]. destruct (a x), (b x); cbn [negb andb List.length]; lia.
Qed.

Lemma coprime_two_primes (p q k : Z) :
  Z.prime p -> Z.prime q ->
  (Z.gcd k (p * q) =? 1) = negb (k mod p =? 0) && negb (k mod q =? 0).
Proof.
  intros Hp Hq.
  pose proof (Z.prime_ge_2 p Hp). pose proof (Z.prime_ge_2 q Hq).
  destruct (Z.eqb_spec (k mod p) 0) as [Ep | Ep];
    [| destruct (Z.eqb_spec (k mod q) 0) as [Eq | Eq]]; cbn [negb andb].
  - apply Z.eqb_neq. intros Hg.
    apply Z.mod_divide in Ep; [| lia].
    assert (Hd : (p | 1)).
    { rewrite <- Hg. apply Z.gcd_greatest; [exact Ep |].
      apply Z.divide_factor_l. }
    apply Z.divide_1_r_nonneg in Hd; lia.
  - apply Z.eqb_neq. intros Hg.
    apply Z.mod_divide in Eq; [| lia].
    assert (Hd : (q | 1)).
    { rewrite <- Hg. apply Z.gcd_greatest; [exact Eq |].
      apply Z.divide_factor_r. }
    apply Z.divide_1_r_nonneg in Hd; lia.
  - apply Z.eqb_eq. apply Z.coprime_mul_r.
    + symmetry. apply Z.coprime_prime_l; [exact Hp |].
      intros Hd. apply Ep. apply Z.mod_divide; [lia | exact Hd].
    + symmetry. apply Z.coprime_prime_l; [exact Hq |].
      intros Hd. apply Eq. apply Z.mod_divide; [lia | exact Hd].
Qed.

Lemma multiple_of_two_primes (p q k : Z) :
  Z.prime p -> Z.prime q -> p <> q ->
  (k mod p =? 0) && (k mod q =? 0) = (k mod (p * q) =? 0).
Proof.
  intros Hp Hq Hpq.
  pose proof (Z.prime_ge_2 p Hp). pose proof (Z.prime_ge_2 q Hq).
  destruct (Z.eqb_spec (k mod (p * q)) 0) as [E | NE].
  - apply Z.mod_divide in E; [| nia]. destruct E as [w Hw].
    apply andb_true_iff. split; apply Z.eqb_eq; apply Z.mod_divide; try lia.
    + exists (w * q). lia.
    + exists (w * p). lia.
  - apply andb_false_iff.
    destruct (Z.eqb_spec (k mod p) 0) as [Ep | _]; [| left; reflexivity].
    destruct (Z.eqb_spec (k mod q) 0) as [Eq | _]; [| right; reflexivity].
    exfalso. apply NE.
    rewrite (mod_eq_of_two_primes p q k 0 Hp Hq Hpq);
      [reflexivity | rewrite Ep | rewrite Eq]; reflexivity.
Qed.

Lemma totient_two_primes (p q : Z) :
  Z.prime p -> Z.prime q -> p <> q -> totient (p * q) = (p - 1) * (q - 1).
Proof.
  intros Hp Hq Hpq.
  pose proof (Z.prime_ge_2 p Hp). pose proof (Z.prime_ge_2 q Hq).
  unfold totient. set (l := map Z.of_nat (seq 1 (Z.to_nat (p * q)))).
  rewrite (filter_ext _ (fun k => negb (k mod p =? 0) && negb (k mod q =? 0)))
    by (intros k; apply coprime_two_primes; assumption).
  pose proof (count_two_filters Z (fun k => k mod p =? 0)
                (fun k => k mod q =? 0) l) as Hcount.
  rewrite (filter_ext (fun k => (k mod p =? 0) && (k mod q =? 0))
             (fun k => k mod (p * q) =? 0)) in Hcount
    by (intros k; apply multiple_of_two_primes; assumption).
  apply (f_equal Z.of_nat) in Hcount.
  rewrite !Nat2Z.inj_add in Hcount. unfold l in Hcount.
  rewrite !count_multiples in Hcount by nia.
  rewrite length_map, length_seq, Z2Nat.id in Hcount by nia.
  assert (E1 : p * q / p = q) by (rewrite Z.mul_comm; apply Z.div_mul; lia).
  assert (E2 : p * q / q = p) by (apply Z.div_mul; lia).
  assert (E3 : p * q / (p * q) = 1) by (apply Z.div_same; nia).
  rewrite E1, E2, E3 in Hcount. unfold l. lia.
Qed.

Lemma rsa_identity (e d N x : Z) :
  valid_keypair e d N -> x ^ (e * d) mod N = x mod N.
Proof.
  intros (p & q & Hp & Hq & Hpq & -> & He & Hd & Hed).
  rewrite (totient_two_primes p q Hp Hq Hpq) in Hed.
  pose proof (Z.prime_ge_2 p Hp). pose proof (Z.prime_ge_2 q Hq).
  assert (Hphi : 0 < (p - 1) * (q - 1)) by nia.
  pose proof (Z.div_mod (e * d) ((p - 1) * (q - 1)) ltac:(lia)) as Hdm.
  rewrite Hed in Hdm.
  assert (Ht : 0 <= e * d / ((p - 1) * (q - 1))).
  { apply Z.div_pos; nia. }
  set (t := e * d / ((p - 1) * (q - 1))) in *.
  apply mod_eq_of_two_primes; try assumption.
  - replace (e * d) with (1 + (t * (q - 1)) * (p - 1)) by lia.
    apply pow_fermat_mult; [assumption | nia].
  - replace (e * d) with (1 + (t * (p - 1)) * (q - 1)) by lia.
    apply pow_fermat_mult; [assumption | nia].
Qed.

(** ** The sampling loop and the blinding step *)

Lemma randint_draw (N : Z) (g : rng) :
  3 <= N -> randint 2 (N - 1) g = Ok (draw N g O, rng_tail g).
Proof.
  intros HN. unfold randint, draw.
  destruct (Z.ltb_spec (N - 1) 2) as [L | _]; [lia |].
  replace (N - 1 - 2 + 1) with (N - 2) by lia. reflexivity.
Qed.

Lemma randint_empty (N : Z) (g : rng) :
  N < 3 -> randint 2 (N - 1) g = Raise (ValueError "empty range for randrange()").
Proof.
  intros HN. unfold randint.
  destruct (Z.ltb_spec (N - 1) 2) as [_ | L]; [reflexivity | lia].
Qed.

Lemma draw_range (N : Z) (g : rng) (i : nat) :
  3 <= N -> 2 <= draw N g i <= N - 1.
Proof.
  intros HN. unfold draw.
  pose proof (Z.mod_pos_bound (g i) (N - 2) ltac:(lia)). lia.
Qed.

Lemma _gcd_draw (N : Z) (g : rng) (i : nat) :
  3 <= N -> (_gcd (draw N g i) N =? 1) = (Z.gcd (draw N g i) N =? 1).
Proof.
  intros HN. pose proof (draw_range N g i HN).
  rewrite _gcd_nonneg by lia. reflexivity.
Qed.

Lemma sample_r_step (fuel : nat) (self : MessageOwner.t) (g : rng) :
  3 <= N self ->
  sample_r (S fuel) self g =
  if Z.gcd (draw (N self) g O) (N self) =? 1
  then Ok (draw (N self) g O, rng_tail g)
  else sample_r fuel self (rng_tail g).
Proof.
  intros HN. cbn [sample_r].
  rewrite randint_draw by assumption. cbn [bind].
  rewrite _gcd_draw by assumption. reflexivity.
Qed.

Lemma first_coprime_tail (N : Z) (g : rng) (k : nat) :
  first_coprime N g (S k) -> first_coprime N (rng_tail g) k.
Proof.
  intros [Hk Hlt]. split.
  - exact Hk.
  - intros i Hi. apply (Hlt (S i)). lia.
Qed.

Lemma sample_r_found (self : MessageOwner.t) (k fuel : nat) (g : rng) :
  3 <= N self -> first_coprime (N self) g k -> (k < fuel)%nat ->
  sample_r fuel self g = Ok (draw (N self) g k, rng_drop (S k) g).
Proof.
  intros HN. revert fuel g.
  induction k as [| k IH]; intros fuel g Hfc Hlt;
    (destruct fuel as [| fuel]; [lia |]); rewrite sample_r_step by assumption.
  - destruct Hfc as [Hk _]. rewrite Hk. reflexivity.
  - destruct (Z.eqb_spec (Z.gcd (draw (N self) g O) (N self)) 1) as [E | _].
    + destruct Hfc as [_ Hall]. exfalso. apply (Hall O); [lia | exact E].
    + apply (IH fuel (rng_tail g)); [apply first_coprime_tail; exact Hfc | lia].
Qed.

Lemma sample_r_running (self : MessageOwner.t) (fuel : nat) (g : rng) :
  3 <= N self ->
  (forall i : nat, (i < fuel)%nat -> Z.gcd (draw (N self) g i) (N self) <> 1) ->
  sample_r fuel self g = OutOfFuel.
Proof.
  intros HN. revert g.
  induction fuel as [| fuel IH]; intros g Hall; [reflexivity |].
  rewrite sample_r_step by assumption.
  destruct (Z.eqb_spec (Z.gcd (draw (N self) g O) (N self)) 1) as [E | _].
  - exfalso. apply (Hall O); [lia | exact E].
  - apply IH. intros i Hi. apply (Hall (S i)). lia.
Qed.

Section BlindingStep.

Variable SHA256 : list byte -> list byte.

Lemma digest_nonneg (message : message) : 0 <= digest SHA256 message.
Proof. apply bytes_to_long_nonneg. Qed.

Lemma blind_message_supplied (fuel : nat) (self : MessageOwner.t)
    (message : message) (r0 : Z) (g : rng) :
  0 <= e self -> N self <> 0 ->
  blind_message SHA256 fuel self message (Some r0) g =
  Ok ({| blinded_msg := (digest SHA256 message * r0 ^ e self) mod N self;
         r := r0;
         original_hash := digest SHA256 message |}, g).
Proof.
  intros He HN. unfold blind_message. cbn [bind].
  rewrite pow_nonneg by assumption. cbn [bind].
  rewrite mod_nonzero by assumption. cbn [bind].
  rewrite Z.mul_mod_idemp_r by assumption. reflexivity.
Qed.

Lemma blind_message_sampled (fuel : nat) (self : MessageOwner.t)
    (message : message) (g : rng) :
  blind_message SHA256 fuel self message None g =
  ('(r0, g') <- sample_r fuel self g ;;
   blind_message SHA256 fuel self message (Some r0) g').
Proof.
  unfold blind_message.
  destruct (sample_r fuel self g) as [[r0 g'] | err |]; reflexivity.
Qed.

End BlindingStep.

(** ** Blind, sign, unblind, verify *)

Lemma valid_keypair_modulus (e d N : Z) : valid_keypair e d N -> 6 <= N.
Proof.
  intros (p & q & Hp & Hq & Hpq & -> & _).
  pose proof (Z.prime_ge_2 p Hp). pose proof (Z.prime_ge_2 q Hq). nia.
Qed.

Lemma valid_keypair_exponents (e d N : Z) :
  valid_keypair e d N -> 0 < e /\ 0 < d.
Proof. intros (p & q & H). tauto. Qed.


Section Owner.

Variable SHA256 : list byte -> list byte.

Lemma verify_value (self : MessageOwner.t) (message : message) (s : Z) :
  0 <= e self -> N self <> 0 ->
  verify SHA256 self message s =
  Ok (s ^ e self mod N self =? digest SHA256 message mod N self).
Proof.
  intros He HN. unfold verify.
  rewrite pow_nonneg by assumption. cbn [bind].
  rewrite mod_nonzero by assumption. reflexivity.
Qed.


Lemma verify_signature (e d N : Z) (message : message) :
  valid_keypair e d N ->
  verify SHA256 (MessageOwner.new e N) message
    (digest SHA256 message ^ d mod N) = Ok true.
Proof.
  intros Hkp. pose proof (valid_keypair_modulus e d N Hkp) as HN.
  destruct (valid_keypair_exponents e d N Hkp) as [He Hd].
  rewrite verify_value by (cbn; lia). cbn [MessageOwner.e MessageOwner.N].
  rewrite Z.mod_pow_l, <- Z.pow_mul_r, (Z.mul_comm d e) by lia.
  rewrite (rsa_identity e d N _ Hkp), Z.eqb_refl. reflexivity.
Qed.


End Owner.

(** ** Concrete key pairs *)

Lemma no_divisor_from_sound (fuel : nat) (n p : Z) :
  no_divisor_from fuel n p = true -> 0 < n ->
  forall m : Z, n <= m < n + Z.of_nat fuel -> m * m <= p -> ~ (m | p).
Proof.
  revert n. induction fuel as [| fuel IH]; intros n Hcheck Hn m Hm Hsq.
  - lia.
  - cbn [no_divisor_from] in Hcheck.
    destruct (Z.ltb_spec p (n * n)) as [Hlt | Hge]; [nia |].
    destruct (Z.eqb_spec (p mod n) 0) as [E | NE]; [discriminate |].
    destruct (Z.eq_dec m n) as [-> | Hneq].
    + intros Hdiv. apply NE. apply Z.mod_divide; [lia | exact Hdiv].
    + apply (IH (n + 1)); [exact Hcheck | lia | lia | exact Hsq].
Qed.

Lemma prime_check_sound (p : Z) : prime_check p = true -> Z.prime p.
Proof.
  unfold prime_check. intros H. apply andb_prop in H as [H1 H2].
  apply Z.ltb_lt in H1. split; [exact H1 |].
  intros n Hn [k Hk].
  assert (Hk1 : 1 < k) by nia.
  destruct (Z.le_ge_cases n k) as [Hle | Hge].
  - apply (no_divisor_from_sound (Z.to_nat p) 2 p H2 ltac:(lia) n);
      [lia | nia | exists k; exact Hk].
  - apply (no_divisor_from_sound (Z.to_nat p) 2 p H2 ltac:(lia) k);
      [nia | nia | exists n; lia].
Qed.

Lemma valid_keypair_3_7_33 : valid_keypair 3 7 33.
Proof.
  exists 3, 11.
  split; [apply prime_check_sound; vm_compute; reflexivity |].
  split; [apply prime_check_sound; vm_compute; reflexivity |].
  repeat split; lia.
Qed.

Lemma first_coprime_33 : first_coprime 33 (list_rng [1; 2]) 1.
Proof.
  split; [reflexivity |].
  intros i Hi. assert (i = O) as -> by lia. discriminate.
Qed.

(** * Properties stated by the specification *)








Lemma blinding_step_sampled (SHA256 : list byte -> list byte)
    (e N : Z) (message : message) (g : rng) (k fuel : nat) :
  0 <= e -> 3 <= N -> first_coprime N g k -> (k < fuel)%nat ->
  blind_message SHA256 fuel (MessageOwner.new e N) message None g =
  Ok ({| blinded_msg := (digest SHA256 message * draw N g k ^ e) mod N;
         r := draw N g k;
         original_hash := digest SHA256 message |}, rng_drop (S k) g) /\
  2 <= draw N g k <= N - 1 /\ Z.gcd (draw N g k) N = 1.
Proof.
  intros He HN Hfc Hlt. split; [| split].
  - rewrite blind_message_sampled.
    rewrite (sample_r_found (MessageOwner.new e N) k fuel g) by (cbn; auto).
    cbn [bind]. apply blind_message_supplied; cbn; lia.
  - apply draw_range. exact HN.
  - apply Hfc.
Qed.

(** C4 (blinding formula).  With a public exponent [e >= 0], [blind_message]
    returns the record holding the digest [m], the factor [r] and the
    blinded value [(m * r^e) mod N]: for a factor supplied by the caller, and
    for a sampled one, which is then the first draw from [2..N-1] with
    [gcd(r, N) = 1]. *)
Theorem blinding_formula (SHA256 : list byte -> list byte)
    (e N : Z) (message : message) :
  0 <= e ->
  (forall (r0 : Z) (g : rng) (fuel : nat),
      N <> 0 ->
      blind_message SHA256 fuel (MessageOwner.new e N) message (Some r0) g =
      Ok ({| blinded_msg := (digest SHA256 message * r0 ^ e) mod N;
             r := r0;
             original_hash := digest SHA256 message |}, g)) /\
  (forall (g : rng) (k fuel : nat),
      3 <= N -> first_coprime N g k -> (k < fuel)%nat ->
      let r0 := draw N g k in
      blind_message SHA256 fuel (MessageOwner.new e N) message None g =
      Ok ({| blinded_msg := (digest SHA256 message * r0 ^ e) mod N;
             r := r0;
             original_hash := digest SHA256 message |}, rng_drop (S k) g) /\
      2 <= r0 <= N - 1 /\ Z.gcd r0 N = 1).
Proof.
  intros He. split.
  - intros r0 g fuel HN. apply blind_message_supplied; assumption.
  - intros g k fuel HN Hfc Hlt r0.
    apply blinding_step_sampled; assumption.
Qed.

Lemma blinding_formula_witness :
  0 <= 3 /\
  (33 <> 0 /\
   blind_message id_hash 0 owner33 (Bytes [x05]) (Some 2) (const_rng 0) =
   Ok ({| blinded_msg := 7; r := 2; original_hash := 5 |}, const_rng 0)) /\
  (3 <= 33 /\ first_coprime 33 (list_rng [1; 2]) 1 /\ (1 < 5)%nat /\
   fmap_blind (blind_message id_hash 5 owner33 (Bytes [x05]) None
                 (list_rng [1; 2])) =
   Ok {| blinded_msg := 23; r := 4; original_hash := 5 |}).
Proof.
  pose proof (blinding_formula id_hash 3 33 (Bytes [x05]) ltac:(lia))
    as [Hsupplied Hsampled].
  split; [lia |]. split.
  - split; [lia |]. apply (Hsupplied 2 (const_rng 0) 0%nat). lia.
  - split; [lia |]. split; [exact first_coprime_33 |].
    split; [repeat constructor |].
    destruct (Hsampled (list_rng [1; 2]) 1%nat 5%nat ltac:(lia)
                first_coprime_33 ltac:(repeat constructor)) as [Hblind _].
    unfold owner33. rewrite Hblind. reflexivity.
Defined.

(** C5 (verify).  With a public key [e >= 0], [N <> 0], for every message
    and every integer signature, [verify] returns the boolean
    [signature^e mod N == digest(message) mod N]: a mismatch is the value
    [false], never an exception. *)
Theorem verify_is_predicate (SHA256 : list byte -> list byte)
    (e N : Z) (message : message) (signature : Z) :
  0 <= e -> N <> 0 ->
  verify SHA256 (MessageOwner.new e N) message signature =
  Ok (signature ^ e mod N =? digest SHA256 message mod N).
Proof. intros He HN. apply verify_value; assumption. Qed.

Lemma verify_is_predicate_witness :
  0 <= 3 /\ 33 <> 0 /\
  verify id_hash owner33 (Bytes [x05]) 14 = Ok true /\
  verify id_hash owner33 (Bytes [x05]) 15 = Ok false /\
  verify id_hash owner33 (Bytes [x05]) 15 =
  Ok (15 ^ 3 mod 33 =? digest id_hash (Bytes [x05]) mod 33).
Proof.
  split; [lia |]. split; [lia |].
  split; [reflexivity |]. split; [reflexivity |].
  apply (verify_is_predicate id_hash 3 33 (Bytes [x05]) 15); lia.
Defined.

(** ** Negative verification *)

Lemma dup_in_list (l : list Z) :
  ~ NoDup l ->
  exists i j : nat, (i < j < List.length l)%nat /\ nth i l 0 = nth j l 0.
Proof.
  induction l as [| a l IH]; intros Hnd.
  - exfalso. apply Hnd. constructor.
  - destruct (in_dec Z.eq_dec a l) as [Hin | Hnin].
    + destruct (In_nth l a 0 Hin) as (n & Hn & En).
      exists O, (S n). cbn [nth List.length]. split; [lia | congruence].
    + destruct IH as (i & j & Hij & E).
      { intros Hl. apply Hnd. constructor; assumption. }
      exists (S i), (S j). cbn [nth List.length]. split; [lia | exact E].
Qed.

Lemma pigeonhole (n : nat) (f : nat -> Z) :
  (forall i : nat, 0 <= f i < Z.of_nat n) ->
  exists i j : nat, (i < j <= n)%nat /\ f i = f j.
Proof.
  intros Hf.
  destruct (dup_in_list (map f (seq 0 (S n)))) as (i & j & Hij & E).
  - intros Hnd.
    assert (Hincl : incl (map f (seq 0 (S n))) (map Z.of_nat (seq 0 n))).
    { intros z Hz. apply in_map_iff in Hz as (i & <- & _).
      apply in_map_iff. exists (Z.to_nat (f i)).
      pose proof (Hf i). split; [lia |]. apply in_seq. lia. }
    pose proof (NoDup_incl_length Hnd Hincl) as Hlen.
    rewrite !length_map, !length_seq in Hlen. lia.
  - rewrite length_map, length_seq in Hij.
    exists i, j. split; [lia |].
    rewrite (nth_indep _ 0 (f O)), (nth_indep _ 0 (f O)) in E
      by (rewrite length_map, length_seq; lia).
    rewrite !map_nth, !seq_nth in E by lia. exact E.
Qed.

Lemma repeat_neq (i j : nat) :
  i <> j -> Bytes (repeat x00 i) <> Bytes (repeat x00 j).
Proof.
  intros Hij E. injection E as E.
  apply (f_equal (@List.length byte)) in E.
  rewrite !repeat_length in E. contradiction.
Qed.

(** No hash function separates all messages modulo [N]: for every valid
    key pair some signature is accepted for two different messages. *)
Lemma altered_message_accepted (SHA256 : list byte -> list byte)
    (e d N : Z) :
  valid_keypair e d N -> ~ altered_message_rejected SHA256 e N.
Proof.
  intros Hkp Hrej. pose proof (valid_keypair_modulus e d N Hkp) as HN.
  destruct (valid_keypair_exponents e d N Hkp) as [He Hd].
  destruct (pigeonhole (Z.to_nat N)
              (fun i => digest SHA256 (Bytes (repeat x00 i)) mod N))
    as (i & j & Hij & E).
  { intros i. rewrite Z2Nat.id by lia. apply Z.mod_pos_bound. lia. }
  set (m1 := Bytes (repeat x00 i)) in *.
  set (m2 := Bytes (repeat x00 j)) in *.
  pose proof (verify_signature SHA256 e d N m1 Hkp) as H1.
  assert (H2 : verify SHA256 (MessageOwner.new e N) m2
                 (digest SHA256 m1 ^ d mod N) = Ok true).
  { rewrite verify_value in H1 |- * by (cbn; lia).
    cbn [MessageOwner.e MessageOwner.N] in H1 |- *. rewrite <- E. exact H1. }
  rewrite (Hrej m1 m2 _ H1) in H2; [discriminate |].
  apply repeat_neq. lia.
Qed.

(** C6 (negative verification), as the code has it.  For every valid key
    pair, if [verify(message, s)] is true then [verify] is false for every
    signature that differs from [s] modulo [N], and false for every altered
    message whose digest differs from the original one modulo [N]. *)
Theorem negative_verification (SHA256 : list byte -> list byte)
    (e d N : Z) (message : message) (s : Z) :
  valid_keypair e d N ->
  verify SHA256 (MessageOwner.new e N) message s = Ok true ->
  (forall s' : Z, s' mod N <> s mod N ->
     verify SHA256 (MessageOwner.new e N) message s' = Ok false) /\
  (forall message' : Py.message,
     digest SHA256 message' mod N <> digest SHA256 message mod N ->
     verify SHA256 (MessageOwner.new e N) message' s = Ok false).
Proof.
  intros Hkp Hver. pose proof (valid_keypair_modulus e d N Hkp) as HN.
  destruct (valid_keypair_exponents e d N Hkp) as [He Hd].
  rewrite verify_value in Hver by (cbn; lia).
  cbn [MessageOwner.e MessageOwner.N] in Hver.
  injection Hver as Hver. apply Z.eqb_eq in Hver.
  split.
  - intros s' Hs'. rewrite verify_value by (cbn; lia).
    cbn [MessageOwner.e MessageOwner.N]. f_equal. apply Z.eqb_neq.
    intros E. apply Hs'.
    rewrite <- (rsa_identity e d N s' Hkp), <- (rsa_identity e d N s Hkp).
    rewrite !Z.pow_mul_r by lia.
    rewrite <- (Z.mod_pow_l (s' ^ e)), <- (Z.mod_pow_l (s ^ e)).
    congruence.
  - intros message' Hm. rewrite verify_value by (cbn; lia).
    cbn [MessageOwner.e MessageOwner.N]. f_equal. apply Z.eqb_neq.
    congruence.
Qed.

Lemma negative_verification_witness :
  valid_keypair 3 7 33 /\
  verify id_hash owner33 (Bytes [x05]) 14 = Ok true /\
  (14 + 3) mod 33 <> 14 mod 33 /\
  verify id_hash owner33 (Bytes [x05]) (14 + 3) = Ok false /\
  digest id_hash (Bytes [x06]) mod 33 <> digest id_hash (Bytes [x05]) mod 33 /\
  verify id_hash owner33 (Bytes [x06]) 14 = Ok false.
Proof.
  destruct (negative_verification id_hash 3 7 33 (Bytes [x05]) 14
              valid_keypair_3_7_33 eq_refl) as [Hsig Hmsg].
  split; [exact valid_keypair_3_7_33 |]. split; [reflexivity |].
  split; [discriminate |]. split; [apply Hsig; discriminate |].
  split; [discriminate |]. apply Hmsg. discriminate.
Defined.

(** C6 as stated fails in its second half, whatever the hash function is:
    among 34 messages two have the same digest modulo 33, and a signature of
    the first is accepted for the second. *)
Lemma altered_message_counterexample :
  ~ (exists SHA256 : list byte -> list byte,
       altered_message_rejected SHA256 3 33).
Proof.
  intros [SHA256 Hrej].
  apply (altered_message_accepted SHA256 3 7 33 valid_keypair_3_7_33).
  exact Hrej.
Qed.

(** ** The signer *)

(** C7 (signer), as the code has it.  With a private key [d >= 0],
    [N <> 0], [sign_blinded] returns [blinded_value^d mod N] for every
    integer, inside [0..N-1] or not: it inspects nothing, checks no range and
    raises no error. *)
Theorem sign_blinded_value (d N blinded_value : Z) :
  0 <= d -> N <> 0 ->
  Signer.sign_blinded (Signer.new d N) blinded_value =
  Ok (blinded_value ^ d mod N).
Proof.
  intros Hd HN. unfold Signer.sign_blinded. cbn [Signer.d Signer.N].
  apply pow_nonneg; assumption.
Qed.

Lemma sign_blinded_value_witness :
  0 <= 7 /\ 33 <> 0 /\ Signer.sign_blinded signer33 7 = Ok (7 ^ 7 mod 33).
Proof.
  split; [lia |]. split; [lia |].
  apply (sign_blinded_value 7 33 7); lia.
Defined.

(** C7 as stated fails for a value outside [0..N-1]: it is signed, not
    rejected. *)
Lemma sign_blinded_claim_counterexample :
  (~ 0 <= 40 < 33 /\ Signer.sign_blinded signer33 40 = Ok 28) /\
  (~ 0 <= -1 < 33 /\ Signer.sign_blinded signer33 (-1) = Ok 32).
Proof.
  split; (split; [lia | reflexivity]).
Qed.

(** ** The search for a blinding factor *)

Lemma blind_message_running (SHA256 : list byte -> list byte)
    (self : MessageOwner.t) (message : message) (g : rng) (fuel : nat) :
  3 <= MessageOwner.N self ->
  (forall i : nat, (i < fuel)%nat ->
     Z.gcd (draw (MessageOwner.N self) g i) (MessageOwner.N self) <> 1) ->
  blind_message SHA256 fuel self message None g = OutOfFuel.
Proof.
  intros HN Hall. rewrite blind_message_sampled.
  rewrite (sample_r_running self fuel g HN Hall). reflexivity.
Qed.

Lemma blind_message_empty_range (SHA256 : list byte -> list byte)
    (self : MessageOwner.t) (message : message) (g : rng) (fuel : nat) :
  MessageOwner.N self < 3 ->
  blind_message SHA256 (S fuel) self message None g =
  Raise (ValueError "empty range for randrange()").
Proof.
  intros HN. rewrite blind_message_sampled. cbn [sample_r].
  rewrite randint_empty by exact HN. reflexivity.
Qed.

(** C8 (the blinding-factor search), as the code has it.  The loop has no
    retry bound and no failure of its own: with [N >= 3], if draw number [k]
    is the first one coprime to [N], the call is still running after [k]
    iterations and returns that draw at iteration [k + 1], whatever [k] is;
    if no draw is ever coprime to [N], it runs for ever.  (With [N < 3]
    the range [2..N-1] is empty and the first [randint] raises, see
    [blind_message_empty_range].) *)
Theorem sampling_is_unbounded (SHA256 : list byte -> list byte)
    (e N : Z) (message : message) (g : rng) :
  0 <= e -> 3 <= N ->
  (forall k : nat, first_coprime N g k ->
     (forall fuel : nat, (fuel <= k)%nat ->
        blind_message SHA256 fuel (MessageOwner.new e N) message None g =
        OutOfFuel) /\
     (forall fuel : nat, (k < fuel)%nat ->
        fmap_blind
          (blind_message SHA256 fuel (MessageOwner.new e N) message None g) =
        Ok {| blinded_msg := (digest SHA256 message * draw N g k ^ e) mod N;
              r := draw N g k;
              original_hash := digest SHA256 message |})) /\
  ((forall i : nat, Z.gcd (draw N g i) N <> 1) ->
   forall fuel : nat,
     blind_message SHA256 fuel (MessageOwner.new e N) message None g =
     OutOfFuel).
Proof.
  intros He HN. split.
  - intros k Hfc. split.
    + intros fuel Hle. apply blind_message_running; [exact HN |].
      intros i Hi. apply Hfc. lia.
    + intros fuel Hlt.
      destruct (blinding_step_sampled SHA256 e N message g k fuel He HN Hfc Hlt)
        as [-> _]. reflexivity.
  - intros Hall fuel. apply blind_message_running; [exact HN |].
    intros i _. apply Hall.
Qed.

Lemma sampling_is_unbounded_witness :
  0 <= 3 /\ 3 <= 33 /\
  blind_message id_hash 1 owner33 (Bytes [x05]) None (list_rng [1; 2]) =
  OutOfFuel /\
  fmap_blind
    (blind_message id_hash 2 owner33 (Bytes [x05]) None (list_rng [1; 2])) =
  Ok {| blinded_msg := 23; r := 4; original_hash := 5 |}.
Proof.
  destruct (sampling_is_unbounded id_hash 3 33 (Bytes [x05]) (list_rng [1; 2])
              ltac:(lia) ltac:(lia)) as [Hfirst _].
  destruct (Hfirst 1%nat first_coprime_33) as [Hrunning Hfound].
  split; [lia |]. split; [lia |]. split.
  - apply (Hrunning 1%nat). repeat constructor.
  - unfold owner33. rewrite (Hfound 2%nat) by repeat constructor. reflexivity.
Defined.

(** C8 as stated fails: with [N = 15] and a source whose every draw is 3,
    no iteration budget makes the call return or raise, whatever the hash
    function and the message are. *)
Lemma sampling_claim_counterexample :
  ~ (exists (SHA256 : list byte -> list byte) (message : message)
            (fuel : nat),
       blind_message SHA256 fuel (MessageOwner.new 3 15) message None
         (const_rng 1) <> OutOfFuel).
Proof.
  intros (SHA256 & message & fuel & Hret). apply Hret.
  apply blind_message_running; [cbn; lia |].
  intros i _. discriminate.
Qed.

(** ** Key generation *)

Lemma totient_9 : totient (3 * 3) = 6.
Proof. vm_compute. reflexivity. Qed.

Lemma generate_rsa_keys_unfold
    (getPrime : Z -> rng -> result (Z * rng))
    (inverse : Z -> Z -> result Z)
    (key_size : Z) (g g1 g2 : rng) (p q : Z) :
  getPrime (key_size / 2) g = Ok (p, g1) ->
  getPrime (key_size / 2) g1 = Ok (q, g2) ->
  generate_rsa_keys getPrime inverse key_size g =
  (d <- inverse 65537 ((p - 1) * (q - 1)) ;;
   Ok ((65537, p * q), (d, p * q), g2)).
Proof.
  intros Hp Hq. unfold generate_rsa_keys.
  rewrite Hp. cbn [bind]. rewrite Hq. reflexivity.
Qed.

Lemma lib_inverse_meets_spec : inverse_spec lib_inverse.
Proof.
  intros u v Hu Hv Hg. apply _modinv_ok; [lia | exact Hv | exact Hg].
Qed.

(** C9 (key generation), as the code has it.  For the primes [p] and [q]
    that [getPrime] returned, [generate_rsa_keys] returns the public key
    [(65537, p*q)] and the private key [(d, p*q)] with
    [d = inverse(65537, (p-1)*(q-1))] whenever that call returns, and an
    exception of [inverse] leaves [generate_rsa_keys] unchanged: there is one
    attempt and no error of its own.  When [gcd(65537, (p-1)*(q-1)) = 1] and
    [inverse] meets its contract, [e * d] is 1 modulo [(p-1)*(q-1)]; this is
    the totient of [N], and the result a valid key pair, provided [p <> q],
    which the code does not check. *)
Theorem generate_rsa_keys_correct
    (getPrime : Z -> rng -> result (Z * rng))
    (inverse : Z -> Z -> result Z)
    (key_size : Z) (g g1 g2 : rng) (p q : Z) :
  getPrime (key_size / 2) g = Ok (p, g1) ->
  getPrime (key_size / 2) g1 = Ok (q, g2) ->
  let phi := (p - 1) * (q - 1) in
  (forall d : Z, inverse 65537 phi = Ok d ->
     generate_rsa_keys getPrime inverse key_size g =
     Ok ((65537, p * q), (d, p * q), g2)) /\
  (forall err : exn, inverse 65537 phi = Raise err ->
     generate_rsa_keys getPrime inverse key_size g = Raise err) /\
  (inverse_spec inverse -> Z.prime p -> Z.prime q -> Z.gcd 65537 phi = 1 ->
   exists d : Z,
     inverse 65537 phi = Ok d /\
     generate_rsa_keys getPrime inverse key_size g =
     Ok ((65537, p * q), (d, p * q), g2) /\
     (65537 * d) mod phi = 1 mod phi /\
     (p <> q -> valid_keypair 65537 d (p * q))).
Proof.
  intros Hgp Hgq phi.
  pose proof (generate_rsa_keys_unfold getPrime inverse key_size g g1 g2 p q
                Hgp Hgq) as Hgen.
  fold phi in Hgen. split; [| split].
  - intros d Hd. rewrite Hgen, Hd. reflexivity.
  - intros err Herr. rewrite Hgen, Herr. reflexivity.
  - intros Hspec Hp Hq Hg.
    pose proof (Z.prime_ge_2 p Hp) as Hp2. pose proof (Z.prime_ge_2 q Hq) as Hq2.
    assert (Hphi : 0 < phi) by (unfold phi; nia).
    destruct (Hspec 65537 phi ltac:(lia) Hphi Hg) as (d & Hd & Hrange & Hinv).
    exists d. split; [exact Hd |]. split; [rewrite Hgen, Hd; reflexivity |].
    split; [exact Hinv |].
    intros Hpq. assert (Hphi2 : 1 < phi) by (unfold phi; nia).
    rewrite Z.mod_1_l in Hinv by exact Hphi2.
    exists p, q. repeat (split; [assumption || lia |]).
    split.
    + destruct (Z.eq_dec d 0) as [-> | Hnz]; [| lia].
      rewrite Z.mul_0_r, Z.mod_0_l in Hinv by lia. discriminate.
    + rewrite (totient_two_primes p q Hp Hq Hpq). exact Hinv.
Qed.

Lemma generate_rsa_keys_correct_witness :
  next_prime (8 / 2) (list_rng [3; 11]) = Ok (3, list_rng [11]) /\
  next_prime (8 / 2) (list_rng [11]) = Ok (11, list_rng []) /\
  generate_rsa_keys next_prime lib_inverse 8 (list_rng [3; 11]) =
  Ok ((65537, 3 * 11), (13, 3 * 11), list_rng []) /\
  (65537 * 13) mod ((3 - 1) * (11 - 1)) = 1 /\
  valid_keypair 65537 13 (3 * 11).
Proof.
  destruct (generate_rsa_keys_correct next_prime lib_inverse 8
              (list_rng [3; 11]) (list_rng [11]) (list_rng []) 3 11
              eq_refl eq_refl) as (Hreturn & _ & Hvalid).
  assert (Hd : lib_inverse 65537 ((3 - 1) * (11 - 1)) = Ok 13)
    by (vm_compute; reflexivity).
  split; [reflexivity |]. split; [reflexivity |].
  split; [apply Hreturn; exact Hd |].
  split; [reflexivity |].
  destruct (Hvalid lib_inverse_meets_spec
              (prime_check_sound 3 eq_refl) (prime_check_sound 11 eq_refl)
              eq_refl) as (d & Hd' & _ & _ & Hkp).
  rewrite Hd in Hd'. injection Hd' as <-.
  apply Hkp. discriminate.
Defined.

Lemma prime_917519 : Z.prime 917519.
Proof. apply prime_check_sound. vm_compute. reflexivity. Qed.

(** C9 as stated fails when [getPrime] returns the same prime twice: for
    [p = q = 3] the result is [N = 9] and [d = 1], and [e * d] is 5, not 1,
    modulo the totient 6 of [N].  And when no inverse exists, as for
    [p = 917519 = 14 * 65537 + 1], the only failure is the one of the
    modular inverse itself, at the first attempt, although the next draws
    (3 and 11) would do. *)
Lemma keygen_claim_counterexample :
  (Z.prime 3 /\
   next_prime (4 / 2) (const_rng 3) = Ok (3, const_rng 3) /\
   Z.gcd 65537 ((3 - 1) * (3 - 1)) = 1 /\
   fmap_keys (generate_rsa_keys next_prime lib_inverse 4 (const_rng 3)) =
   Ok ((65537, 9), (1, 9)) /\
   totient 9 = 6 /\
   (65537 * 1) mod totient 9 <> 1) /\
  (Z.prime 917519 /\
   Z.gcd 65537 ((917519 - 1) * (3 - 1)) <> 1 /\
   generate_rsa_keys next_prime lib_inverse 40 (list_rng [917519; 3; 11]) =
   Raise NoInverseError).
Proof.
  split.
  - split; [exact Z.prime_3 |].
    repeat split; try (vm_compute; reflexivity). discriminate.
  - split; [exact prime_917519 |].
    split; [discriminate | vm_compute; reflexivity].
Qed.

(** ** Supplied and sampled blinding factors *)

Lemma sample_r_coprime (fuel : nat) (self : MessageOwner.t) (g g' : rng)
    (r0 : Z) :
  sample_r fuel self g = Ok (r0, g') -> Z.gcd r0 (MessageOwner.N self) = 1.
Proof.
  revert g. induction fuel as [| fuel IH]; intros g Hs; [discriminate |].
  cbn [sample_r] in Hs.
  destruct (randint 2 (MessageOwner.N self - 1) g) as [[r1 g1] | err |];
    cbn [bind] in Hs; try discriminate.
  destruct (Z.eqb_spec (_gcd r1 (MessageOwner.N self)) 1) as [E | _].
  - injection Hs as <- _. rewrite <- _gcd_abs, E. reflexivity.
  - apply (IH g1). exact Hs.
Qed.

Lemma blind_message_sampled_coprime (SHA256 : list byte -> list byte)
    (fuel : nat) (self : MessageOwner.t) (message : message) (g g' : rng)
    (bd : blind_data) :
  blind_message SHA256 fuel self message None g = Ok (bd, g') ->
  Z.gcd (r bd) (MessageOwner.N self) = 1.
Proof.
  unfold blind_message. intros Hb.
  destruct (sample_r fuel self g) as [[r0 g0] | err |] eqn:Hs;
    cbn [bind] in Hb; try discriminate.
  destruct (pow r0 (e self) (MessageOwner.N self)) as [pw | err |];
    cbn [bind] in Hb; try discriminate.
  destruct (mod_ (digest SHA256 message * pw) (MessageOwner.N self))
    as [bl | err |]; cbn [bind] in Hb; try discriminate.
  injection Hb as <- _. cbn [r].
  apply (sample_r_coprime fuel self g g0 r0 Hs).
Qed.

(** C10 (a supplied blinding factor is not validated).  With a public key
    [e >= 0], [N <> 0], for every integer [r] that the caller supplies,
    coprime to [N] or not, inside [2..N-1] or not, [blind_message] returns
    normally with [blinded = (digest(message) * r^e) mod N]; when
    [gcd(r, N) <> 1] the failure comes only later, from the modular inverse
    in [unblind_signature].  Only a factor that [blind_message] samples
    itself has passed the coprimality test. *)
Theorem supplied_factor_unchecked (SHA256 : list byte -> list byte)
    (e N : Z) (message : message) (r0 : Z) (g : rng) (fuel : nat) :
  0 <= e -> N <> 0 ->
  blind_message SHA256 fuel (MessageOwner.new e N) message (Some r0) g =
  Ok ({| blinded_msg := (digest SHA256 message * r0 ^ e) mod N;
         r := r0;
         original_hash := digest SHA256 message |}, g) /\
  (Z.gcd r0 N <> 1 ->
   forall blinded_signature : Z,
     unblind_signature (MessageOwner.new e N) blinded_signature r0 =
     Raise NoInverseError) /\
  (forall (bd : blind_data) (g' : rng),
     blind_message SHA256 fuel (MessageOwner.new e N) message None g =
     Ok (bd, g') ->
     Z.gcd (r bd) N = 1).
Proof.
  intros He HN. split; [| split].
  - apply blind_message_supplied; assumption.
  - intros Hg s. unfold unblind_signature. cbn [MessageOwner.N].
    rewrite (_modinv_not_coprime r0 N Hg). reflexivity.
  - intros bd g' Hb.
    apply (blind_message_sampled_coprime SHA256 fuel (MessageOwner.new e N)
             message g g' bd Hb).
Qed.

Lemma supplied_factor_unchecked_witness :
  0 <= 3 /\ 33 <> 0 /\
  blind_message id_hash 0 owner33 (Bytes [x05]) (Some 99) (const_rng 0) =
  Ok ({| blinded_msg := 0; r := 99; original_hash := 5 |}, const_rng 0) /\
  Z.gcd 99 33 <> 1 /\
  unblind_signature owner33 0 99 = Raise NoInverseError.
Proof.
  destruct (supplied_factor_unchecked id_hash 3 33 (Bytes [x05]) 99
              (const_rng 0) 0 ltac:(lia) ltac:(lia)) as (Hblind & Hunblind & _).
  split; [lia |]. split; [lia |]. split; [exact Hblind |].
  split; [discriminate |]. apply Hunblind. discriminate.
Defined.

(** * Further properties of the arithmetic *)

Lemma _gcd_sign_of_divisor (a b : Z) :
  b <> 0 -> Z.sgn (_gcd a b) = Z.sgn b.
Proof.
  funelim (_gcd a b); intros Hb'; [contradiction |].
  destruct (Z.eq_dec (a mod b) 0) as [Z0 | NZ].
  - rewrite Z0. simp _gcd. reflexivity.
  - rewrite (H NZ).
    pose proof (Z.mod_bound_or a b Hb). lia.
Qed.

(** X1.  [_gcd(a, 0)] is [a]; for [b <> 0], [_gcd(a, b)] is the greatest
    common divisor of [a] and [b] with the sign of [b]. *)
Theorem _gcd_value (a b : Z) :
  _gcd a 0 = a /\ (b <> 0 -> _gcd a b = Z.sgn b * Z.gcd a b).
Proof.
  split.
  - simp _gcd. reflexivity.
  - intros Hb. pose proof (_gcd_abs a b) as Habs.
    pose proof (_gcd_sign_of_divisor a b Hb) as Hsgn.
    rewrite <- Habs, <- Hsgn. destruct (_gcd a b); reflexivity.
Qed.

Lemma _egcd_step (a b : Z) :
  a <> 0 ->
  _egcd a b =
  (let '(g, y, x) := _egcd (b mod a) a in (g, x - (b / a) * y, y)).
Proof.
  intros Ha. funelim (_egcd a b); [contradiction | reflexivity].
Qed.





(** X4.  With the modulus 0, [_modinv(1, 0)] gets past the gcd test and
    fails in [x % m] with a [ZeroDivisionError]; every other argument
    raises the [ValueError] of a missing inverse. *)
Theorem _modinv_zero_modulus (a : Z) :
  _modinv a 0 =
  if a =? 1 then Raise (ZeroDivisionError "integer modulo by zero")
  else Raise NoInverseError.
Proof.
  unfold _modinv.
  destruct (Z.eq_dec a 0) as [-> | Ha].
  - simp _egcd. reflexivity.
  - assert (E : _egcd a 0 = (a, 1, 0)).
    { rewrite (_egcd_step a 0 Ha), Z.mod_0_l by exact Ha.
      simp _egcd. cbn. reflexivity. }
    rewrite E. destruct (Z.eqb_spec a 1) as [-> | _]; reflexivity.
Qed.

(** * Further properties of blinding, signing and verifying *)







(** X7.  [verify] looks at the signature modulo [N] only: with [e >= 0] and
    [N <> 0], a signature and the same signature shifted by any multiple of
    [N] get the same answer; and a [str] message gets the answer of its
    encoded bytes. *)
Theorem verify_signature_modulo (SHA256 : list byte -> list byte)
    (e N : Z) (message : message) (s k : Z) :
  0 <= e -> N <> 0 ->
  verify SHA256 (MessageOwner.new e N) message (s + k * N) =
  verify SHA256 (MessageOwner.new e N) message s /\
  forall t : string,
    verify SHA256 (MessageOwner.new e N) (Str t) s =
    verify SHA256 (MessageOwner.new e N) (Bytes (encode t)) s.
Proof.
  intros He HN. split; [| reflexivity].
  rewrite !verify_value by assumption. cbn [MessageOwner.e MessageOwner.N].
  rewrite <- (Z.mod_pow_l (s + k * N)), Z.mod_add by assumption.
  rewrite Z.mod_pow_l. reflexivity.
Qed.

Lemma verify_signature_modulo_witness :
  0 <= 3 /\ 33 <> 0 /\
  verify id_hash owner33 (Bytes [x05]) (14 + 2 * 33) = Ok true /\
  verify id_hash owner33 (Bytes [x05]) (14 + 2 * 33) =
  verify id_hash owner33 (Bytes [x05]) 14.
Proof.
  split; [lia |]. split; [lia |]. split; [reflexivity |].
  apply (verify_signature_modulo id_hash 3 33 (Bytes [x05]) 14 2); lia.
Defined.

(** X8.  [sign_blinded] is multiplicative: with [d >= 0] and [N <> 0] the
    product modulo [N] of the signatures of [a] and [b] is the signature of
    [a * b]; and the signature depends on its input modulo [N] only. *)
Theorem sign_blinded_multiplicative (d N a b k : Z) :
  0 <= d -> N <> 0 ->
  (sa <- Signer.sign_blinded (Signer.new d N) a ;;
   sb <- Signer.sign_blinded (Signer.new d N) b ;;
   mod_ (sa * sb) N) =
  Signer.sign_blinded (Signer.new d N) (a * b) /\
  Signer.sign_blinded (Signer.new d N) (a + k * N) =
  Signer.sign_blinded (Signer.new d N) a.
Proof.
  intros Hd HN. unfold Signer.sign_blinded. cbn [Signer.d Signer.N].
  rewrite !pow_nonneg by assumption. cbn [bind].
  rewrite mod_nonzero by assumption. split; f_equal.
  - rewrite <- Z.mul_mod, Z.pow_mul_l by assumption. reflexivity.
  - rewrite <- (Z.mod_pow_l (a + k * N)), Z.mod_add by assumption.
    apply Z.mod_pow_l.
Qed.

Lemma sign_blinded_multiplicative_witness :
  0 <= 7 /\ 33 <> 0 /\
  Signer.sign_blinded signer33 2 = Ok 29 /\
  Signer.sign_blinded signer33 5 = Ok 14 /\
  Signer.sign_blinded signer33 (2 * 5) = Ok ((29 * 14) mod 33) /\
  Signer.sign_blinded signer33 (2 + 3 * 33) = Ok 29.
Proof.
  destruct (sign_blinded_multiplicative 7 33 2 5 3 ltac:(lia) ltac:(lia))
    as [Hmul Hshift].
  split; [lia |]. split; [lia |].
  split; [reflexivity |]. split; [reflexivity |].
  split; [symmetry; exact Hmul |].
  unfold signer33. rewrite Hshift. reflexivity.
Defined.

(** X9.  Without any blinding, the signer's signature of the digest
    verifies: for every valid key pair and message,
    [verify(message, sign_blinded(digest(message)))] is true. *)
Theorem plain_signature_verifies (SHA256 : list byte -> list byte)
    (e d N : Z) (message : message) :
  valid_keypair e d N ->
  (s <- Signer.sign_blinded (Signer.new d N) (digest SHA256 message) ;;
   verify SHA256 (MessageOwner.new e N) message s) = Ok true.
Proof.
  intros Hkp. pose proof (valid_keypair_modulus e d N Hkp) as HN.
  destruct (valid_keypair_exponents e d N Hkp) as [He Hd].
  unfold Signer.sign_blinded. cbn [Signer.d Signer.N].
  rewrite pow_nonneg by lia. cbn [bind].
  apply verify_signature. exact Hkp.
Qed.

Lemma plain_signature_verifies_witness :
  valid_keypair 3 7 33 /\
  Signer.sign_blinded signer33 (digest id_hash (Bytes [x05])) = Ok 14 /\
  verify id_hash owner33 (Bytes [x05]) 14 = Ok true.
Proof.
  pose proof (plain_signature_verifies id_hash 3 7 33 (Bytes [x05])
                valid_keypair_3_7_33) as H.
  split; [exact valid_keypair_3_7_33 |]. split; [reflexivity |].
  exact H.
Defined.

(** X10.  Blinding with a fixed factor coprime to [N] keeps digests apart:
    with [e >= 0] and [N > 0], two messages get the same blinded value
    exactly when their digests agree modulo [N]. *)
Theorem blinding_separates_digests (SHA256 : list byte -> list byte)
    (e N : Z) (m1 m2 : message) (r0 : Z) (g : rng) (fuel : nat) :
  0 <= e -> 0 < N -> Z.gcd r0 N = 1 ->
  exists bd1 bd2 : blind_data,
    blind_message SHA256 fuel (MessageOwner.new e N) m1 (Some r0) g =
    Ok (bd1, g) /\
    blind_message SHA256 fuel (MessageOwner.new e N) m2 (Some r0) g =
    Ok (bd2, g) /\
    (blinded_msg bd1 = blinded_msg bd2 <->
     digest SHA256 m1 mod N = digest SHA256 m2 mod N).
Proof.
  intros He HN Hg. do 2 eexists.
  split; [apply blind_message_supplied; cbn; lia |].
  split; [apply blind_message_supplied; cbn; lia |].
  cbn [blinded_msg MessageOwner.e MessageOwner.N]. split.
  - intros E.
    assert (Hz : ((digest SHA256 m1 - digest SHA256 m2) * r0 ^ e) mod N = 0).
    { rewrite Z.mul_sub_distr_r, Zminus_mod, E, Z.sub_diag. reflexivity. }
    apply Z.cong_mul_cancel_r_coprime in Hz;
      [| lia | apply Z.coprime_pow_l; [exact He | exact Hg]].
    apply Z.mod_divide in Hz; [| lia]. destruct Hz as [c Hc].
    replace (digest SHA256 m1) with (digest SHA256 m2 + c * N) by lia.
    apply Z.mod_add. lia.
  - intros E. rewrite <- Z.mul_mod_idemp_l, E, Z.mul_mod_idemp_l by lia.
    reflexivity.
Qed.

Lemma blinding_separates_digests_witness :
  0 <= 3 /\ 0 < 33 /\ Z.gcd 2 33 = 1 /\
  fmap_blind (blind_message id_hash 0 owner33 (Bytes [x05]) (Some 2)
                (const_rng 0)) =
  Ok {| blinded_msg := 7; r := 2; original_hash := 5 |} /\
  fmap_blind (blind_message id_hash 0 owner33 (Bytes [x26]) (Some 2)
                (const_rng 0)) =
  Ok {| blinded_msg := 7; r := 2; original_hash := 38 |} /\
  digest id_hash (Bytes [x05]) mod 33 = digest id_hash (Bytes [x26]) mod 33.
Proof.
  destruct (blinding_separates_digests id_hash 3 33 (Bytes [x05])
              (Bytes [x26]) 2 (const_rng 0) 0 ltac:(lia) ltac:(lia) eq_refl)
    as (bd1 & bd2 & H1 & H2 & Hiff).
  split; [lia |]. split; [lia |]. split; [reflexivity |].
  split; [reflexivity |]. split; [reflexivity |].
  apply Hiff. unfold owner33 in *.
  assert (E1 : bd1 = {| blinded_msg := 7; r := 2; original_hash := 5 |})
    by (injection H1 as <-; reflexivity).
  assert (E2 : bd2 = {| blinded_msg := 7; r := 2; original_hash := 38 |})
    by (injection H2 as <-; reflexivity).
  rewrite E1, E2. reflexivity.
Defined.

(** X11: the size of a generated modulus.  [generate_rsa_keys] asks
    [getPrime] for two primes of [key_size // 2] bits; when the two primes
    returned have that many bits and [inverse] returns, the modulus lies in
    [[2^(2n-2), 2^(2n))] for [n = key_size // 2]: it has [2n - 1] or [2n]
    bits, never more than [key_size], and fewer than [key_size] are
    possible. *)
Theorem keygen_modulus_size
    (getPrime : Z -> rng -> result (Z * rng))
    (inverse : Z -> Z -> result Z)
    (key_size : Z) (g g1 g2 : rng) (p q d : Z) :
  2 <= key_size ->
  getPrime (key_size / 2) g = Ok (p, g1) ->
  getPrime (key_size / 2) g1 = Ok (q, g2) ->
  2 ^ (key_size / 2 - 1) <= p < 2 ^ (key_size / 2) ->
  2 ^ (key_size / 2 - 1) <= q < 2 ^ (key_size / 2) ->
  inverse 65537 ((p - 1) * (q - 1)) = Ok d ->
  exists N : Z,
    generate_rsa_keys getPrime inverse key_size g
    = Ok ((65537, N), (d, N), g2)
    /\ 2 ^ (2 * (key_size / 2) - 2) <= N < 2 ^ (2 * (key_size / 2))
    /\ 2 * (key_size / 2) <= key_size.
Proof.
  intros Hk Hgp Hgq Hp Hq Hd. exists (p * q).
  split.
  { rewrite (generate_rsa_keys_unfold getPrime inverse key_size g g1 g2 p q
               Hgp Hgq), Hd. reflexivity. }
  assert (Hn : 1 <= key_size / 2) by (apply Z.div_le_lower_bound; lia).
  set (n := key_size / 2) in *.
  assert (Hlow : 0 < 2 ^ (n - 1)) by (apply Z.pow_pos_nonneg; lia).
  split; [split|].
  - replace (2 * n - 2) with ((n - 1) + (n - 1)) by lia.
    rewrite Z.pow_add_r by lia. nia.
  - replace (2 * n) with (n + n) by lia.
    rewrite Z.pow_add_r by lia. nia.
  - unfold n. pose proof (Z.mul_div_le key_size 2 ltac:(lia)). lia.
Qed.

Lemma keygen_modulus_size_witness :
  2 <= 5
  /\ next_prime (5 / 2) (list_rng [3; 2]) = Ok (3, list_rng [2])
  /\ next_prime (5 / 2) (list_rng [2]) = Ok (2, list_rng [])
  /\ 2 ^ (5 / 2 - 1) <= 3 < 2 ^ (5 / 2)
  /\ 2 ^ (5 / 2 - 1) <= 2 < 2 ^ (5 / 2)
  /\ lib_inverse 65537 ((3 - 1) * (2 - 1)) = Ok 1
  /\ exists N : Z,
       generate_rsa_keys next_prime lib_inverse 5 (list_rng [3; 2])
       = Ok ((65537, N), (1, N), list_rng [])
       /\ 2 ^ (2 * (5 / 2) - 2) <= N < 2 ^ (2 * (5 / 2))
       /\ 2 * (5 / 2) <= 5.
Proof.
  assert (H1 : 2 <= 5) by lia.
  assert (H2 : next_prime (5 / 2) (list_rng [3; 2]) = Ok (3, list_rng [2]))
    by reflexivity.
  assert (H3 : next_prime (5 / 2) (list_rng [2]) = Ok (2, list_rng []))
    by reflexivity.
  assert (H4 : 2 ^ (5 / 2 - 1) <= 3 < 2 ^ (5 / 2)) by (vm_compute; intuition discriminate).
  assert (H5 : 2 ^ (5 / 2 - 1) <= 2 < 2 ^ (5 / 2)) by (vm_compute; intuition discriminate).
  assert (H6 : lib_inverse 65537 ((3 - 1) * (2 - 1)) = Ok 1)
    by (vm_compute; reflexivity).
  split; [exact H1|]. split; [exact H2|]. split; [exact H3|].
  split; [exact H4|]. split; [exact H5|]. split; [exact H6|].
  exact (keygen_modulus_size next_prime lib_inverse 5 (list_rng [3; 2])
           (list_rng [2]) (list_rng []) 3 2 1 H1 H2 H3 H4 H5 H6).
Defined.

(** * The scripts *)




Section Scripts.

Variable SHA256 : list byte -> list byte.
Variable getPrime : Z -> rng -> result (Z * rng).
Variable inverse : Z -> Z -> result Z.


Lemma run_signer_done (w : Script.world) (d N : Z)
    (data : Script.blind_data_json) (s : Z) :
  Script.signer_private_key_file (Script.disk w) = Some (d, N) ->
  Script.blind_data_file (Script.disk w) = Some data ->
  Signer.sign_blinded (Signer.new d N) (Script.blinded_msg data) = Ok s ->
  Script.run_signer w =
  Script.Done tt (after_signer w d N (Script.blinded_msg data) s).
Proof.
  intros Hkey Hdata Hsign. unfold Script.run_signer.
  unfold Script.bind, Script.print, Script.load, Script.call, Script.dump.
  cbn [Script.random Script.disk Script.stdout].
  rewrite Hkey. cbn [fst snd Script.random Script.disk Script.stdout].
  rewrite Hdata, Hsign.
  unfold after_signer, signer_lines. cbn.
  rewrite <- !app_assoc. reflexivity.
Qed.


End Scripts.





(** X14.  The signer script.  With a stored key [(d, N)], [d >= 0] and
    [N <> 0], and a [blind_data.json], [run_signer] writes
    [blinded_msg^d mod N] to [blind_signature.json] and changes no other
    file; of [blind_data.json] it uses [blinded_msg] only; and the line it
    prints as [Public key (e, N)] shows the private exponent [d]. *)
Theorem run_signer_effect (w : Script.world) (d N : Z)
    (data : Script.blind_data_json) :
  Script.signer_private_key_file (Script.disk w) = Some (d, N) ->
  Script.blind_data_file (Script.disk w) = Some data ->
  0 <= d -> N <> 0 ->
  let s := Script.blinded_msg data ^ d mod N in
  Script.run_signer w =
  Script.Done tt
    {| Script.disk :=
         {| Script.blind_data_file := Some data;
            Script.signer_private_key_file := Some (d, N);
            Script.blind_signature_file := Some s |};
       Script.stdout :=
         Script.stdout w ++ signer_lines d N (Script.blinded_msg data) s;
       Script.random := Script.random w |} /\
  nth 2 (signer_lines d N (Script.blinded_msg data) s) [] =
  [Script.Text "Public key (e, N): ("; Script.Num d; Script.Text ", ";
   Script.Num N; Script.Text ")"].
Proof.
  intros Hkey Hdata Hd HN s. split; [| reflexivity].
  rewrite (run_signer_done w d N data s Hkey Hdata).
  - unfold after_signer. rewrite Hkey, Hdata. reflexivity.
  - unfold Signer.sign_blinded. cbn [Signer.d Signer.N].
    apply pow_nonneg; assumption.
Qed.

Lemma run_signer_effect_witness :
  Script.signer_private_key_file (Script.disk example_world) = Some (7, 33) /\
  0 <= 7 /\ 33 <> 0 /\
  Script.blind_signature_file
    (Script.disk (Script.world_of (Script.run_signer example_world))) =
  Some 28.
Proof.
  destruct (run_signer_effect example_world 7 33
              {| Script.blinded_msg := 7;
                 Script.public_key := (3, 33);
                 Script._secret_r := 2;
                 Script._original_hash := 5 |}
              eq_refl eq_refl ltac:(lia) ltac:(lia)) as [Hrun _].
  split; [reflexivity |]. split; [lia |]. split; [lia |].
  rewrite Hrun. reflexivity.
Defined.

(** X15.  Missing files.  [run_signer] without [signer_private_key.json]
    stops on [FileNotFoundError] after its heading; with the key but without
    [blind_data.json] it stops after it has printed the key.
    [run_message_owner_phase2] stops before printing anything when
    [blind_data.json] or, next, [blind_signature.json] is missing. *)
Theorem scripts_missing_files (SHA256 : list byte -> list byte)
    (w : Script.world) :
  (Script.signer_private_key_file (Script.disk w) = None ->
   Script.run_signer w =
   Script.Crash (Script.FileNotFoundError "signer_private_key.json")
     (with_lines w
        [[Script.Text (Script.nl ++ "=== Signer Process ===")]])) /\
  (forall d N : Z,
     Script.signer_private_key_file (Script.disk w) = Some (d, N) ->
     Script.blind_data_file (Script.disk w) = None ->
     Script.run_signer w =
     Script.Crash (Script.FileNotFoundError "blind_data.json")
       (with_lines w (firstn 4 (signer_lines d N 0 0)))) /\
  (Script.blind_data_file (Script.disk w) = None ->
   Script.run_message_owner_phase2 SHA256 w =
   Script.Crash (Script.FileNotFoundError "blind_data.json") w) /\
  (forall data : Script.blind_data_json,
     Script.blind_data_file (Script.disk w) = Some data ->
     Script.blind_signature_file (Script.disk w) = None ->
     Script.run_message_owner_phase2 SHA256 w =
     Script.Crash (Script.FileNotFoundError "blind_signature.json") w).
Proof.
  split; [| split; [| split]].
  - intros Hkey. unfold Script.run_signer.
    unfold Script.bind, Script.print, Script.load.
    cbn [Script.random Script.disk Script.stdout]. rewrite Hkey.
    reflexivity.
  - intros d N Hkey Hdata. unfold Script.run_signer.
    unfold Script.bind, Script.print, Script.load.
    cbn [Script.random Script.disk Script.stdout]. rewrite Hkey.
    cbn [fst snd Script.random Script.disk Script.stdout]. rewrite Hdata.
    unfold with_lines. cbn. rewrite <- !app_assoc. reflexivity.
  - intros Hdata. unfold Script.run_message_owner_phase2.
    unfold Script.bind, Script.load. rewrite Hdata. reflexivity.
  - intros data Hdata Hsig. unfold Script.run_message_owner_phase2.
    unfold Script.bind, Script.load. rewrite Hdata, Hsig. reflexivity.
Qed.

Lemma phase1_done_or_untouched (SHA256 : list byte -> list byte)
    (getPrime : Z -> rng -> result (Z * rng))
    (inverse : Z -> Z -> result Z)
    (fuel : nat) (w : Script.world) :
  (exists w1 : Script.world,
     Script.run_message_owner_phase1 SHA256 getPrime inverse fuel w =
     Script.Done tt w1) \/
  Script.disk
    (Script.world_of
       (Script.run_message_owner_phase1 SHA256 getPrime inverse fuel w)) =
  Script.disk w.
Proof.
  unfold Script.run_message_owner_phase1, Script.bind, Script.call_random.
  destruct (generate_rsa_keys getPrime inverse default_key_size
              (Script.random w)) as [[[pk sk] g2] | err |];
    [| right; reflexivity | right; reflexivity].
  unfold Script.print, Script.dump.
  cbn [Script.random Script.disk Script.stdout].
  destruct (blind_message SHA256 fuel _ _ None g2) as [[bd g3] | err |];
    [| right; reflexivity | right; reflexivity].
  left. eexists. reflexivity.
Qed.

Lemma run_signer_done_or_untouched (w : Script.world) :
  (exists w1 : Script.world, Script.run_signer w = Script.Done tt w1) \/
  Script.disk (Script.world_of (Script.run_signer w)) = Script.disk w.
Proof.
  unfold Script.run_signer, Script.bind, Script.print, Script.load,
    Script.call, Script.dump.
  cbn [Script.random Script.disk Script.stdout].
  destruct (Script.signer_private_key_file (Script.disk w)) as [[d N] |];
    [| right; reflexivity].
  cbn [fst snd Script.random Script.disk Script.stdout].
  destruct (Script.blind_data_file (Script.disk w)) as [data |];
    [| right; reflexivity].
  destruct (Signer.sign_blinded _ _) as [s | err |];
    [| right; reflexivity | right; reflexivity].
  left. eexists. reflexivity.
Qed.

(** X16.  Files are written last.  A first phase or a signer run that does
    not reach its end has written no file, and the second phase never
    writes a file or draws from the random source, however it ends. *)
Theorem unfinished_runs_write_nothing (SHA256 : list byte -> list byte)
    (getPrime : Z -> rng -> result (Z * rng))
    (inverse : Z -> Z -> result Z)
    (fuel : nat) (w : Script.world) :
  ((forall w1 : Script.world,
      Script.run_message_owner_phase1 SHA256 getPrime inverse fuel w <>
      Script.Done tt w1) ->
   Script.disk
     (Script.world_of
        (Script.run_message_owner_phase1 SHA256 getPrime inverse fuel w)) =
   Script.disk w) /\
  ((forall w1 : Script.world, Script.run_signer w <> Script.Done tt w1) ->
   Script.disk (Script.world_of (Script.run_signer w)) = Script.disk w) /\
  Script.disk (Script.world_of (Script.run_message_owner_phase2 SHA256 w)) =
  Script.disk w /\
  Script.random (Script.world_of (Script.run_message_owner_phase2 SHA256 w)) =
  Script.random w.
Proof.
  split; [| split].
  - intros Hnot.
    destruct (phase1_done_or_untouched SHA256 getPrime inverse fuel w)
      as [[w1 E] | E]; [| exact E].
    exfalso. apply (Hnot w1 E).
  - intros Hnot.
    destruct (run_signer_done_or_untouched w) as [[w1 E] | E]; [| exact E].
    exfalso. apply (Hnot w1 E).
  - unfold Script.run_message_owner_phase2, Script.bind, Script.print,
      Script.load, Script.call.
    cbn [Script.random Script.disk Script.stdout].
    destruct (Script.blind_data_file (Script.disk w)) as [data |];
      [| split; reflexivity].
    destruct (Script.blind_signature_file (Script.disk w)) as [s |];
      [| split; reflexivity].
    cbn [Script.random Script.disk Script.stdout].
    destruct (unblind_signature _ _ _) as [u | err |];
      [| split; reflexivity | split; reflexivity].
    cbn [Script.random Script.disk Script.stdout].
    destruct (verify _ _ _ _) as [b | err |]; split; reflexivity.
Qed.

(** ** Hexadecimal text *)

Lemma fromhex_hex_cons (b : byte) (s : string) :
  PyBytes.fromhex
    (String (PyBytes.hex_digit (Byte.to_N b / 16)%N)
       (String (PyBytes.hex_digit (Byte.to_N b mod 16)%N) s))
  = Py.bind (PyBytes.fromhex s) (fun bs => Ok (b :: bs)).
Proof. destruct b; reflexivity. Qed.

Lemma fromhex_hex (bs : list byte) :
  PyBytes.fromhex (PyBytes.hex bs) = Ok bs.
Proof.
  induction bs as [|b bs IH]; [reflexivity|].
  cbn [PyBytes.hex]. rewrite fromhex_hex_cons, IH. reflexivity.
Qed.

Lemma hex_app (a b : list byte) :
  PyBytes.hex (a ++ b) = (PyBytes.hex a ++ PyBytes.hex b)%string.
Proof.
  induction a as [|x a IH]; [reflexivity|].
  cbn [PyBytes.hex app String.append]. rewrite IH. reflexivity.
Qed.

Lemma hex_length (bs : list byte) :
  String.length (PyBytes.hex bs) = (2 * List.length bs)%nat.
Proof.
  induction bs as [|b bs IH]; [reflexivity|].
  cbn [PyBytes.hex String.length List.length]. rewrite IH. lia.
Qed.

Lemma randbytes_length (n : nat) (g : rng) :
  List.length (fst (PyBytes.randbytes n g)) = n
  /\ snd (PyBytes.randbytes n g) = rng_drop n g.
Proof.
  revert g. induction n as [|n IH]; intros g; [split; reflexivity|].
  cbn [PyBytes.randbytes]. specialize (IH (rng_tail g)).
  destruct (PyBytes.randbytes n (rng_tail g)) as [bs g'].
  cbn [fst snd List.length] in *. destruct IH as [IH1 IH2].
  split; [now rewrite IH1|]. rewrite IH2. reflexivity.
Qed.

Lemma bytes_eqb_refl (a : list byte) : bytes_eqb a a = true.
Proof.
  induction a as [|x a IH]; [reflexivity|].
  cbn [bytes_eqb]. rewrite IH, (Byte.byte_dec_lb (@eq_refl byte x)). reflexivity.
Qed.

Lemma hex_digits_inj (x y : byte) :
  PyBytes.hex_digit (Byte.to_N x / 16)%N = PyBytes.hex_digit (Byte.to_N y / 16)%N ->
  PyBytes.hex_digit (Byte.to_N x mod 16)%N
  = PyBytes.hex_digit (Byte.to_N y mod 16)%N ->
  x = y.
Proof.
  intros H1 H2.
  pose proof (fromhex_hex_cons x EmptyString) as Hx.
  pose proof (fromhex_hex_cons y EmptyString) as Hy.
  rewrite H1, H2, Hy in Hx. cbn in Hx. congruence.
Qed.

Lemma hex_prefix (a c : list byte) :
  String.prefix (PyBytes.hex a) (PyBytes.hex c) = true
  <-> exists t, c = a ++ t.
Proof.
  revert c. induction a as [|x a IH]; intros c.
  - cbn [app]. split; [intros _; now exists c|].
    intros _. destruct (PyBytes.hex c); reflexivity.
  - destruct c as [|y c].
    + cbn. split; [discriminate | intros [t Ht]; discriminate].
    + cbn [PyBytes.hex String.prefix].
      destruct (ascii_dec _ _) as [E1|E1].
      * destruct (ascii_dec _ _) as [E2|E2].
        -- rewrite IH. pose proof (hex_digits_inj x y E1 E2) as ->.
           split; intros [t Ht]; exists t; cbn [app] in *; congruence.
        -- split; [discriminate|]. intros [t Ht]. cbn [app] in Ht.
           injection Ht as -> _. contradiction.
      * split; [discriminate|]. intros [t Ht]. cbn [app] in Ht.
        injection Ht as -> _. contradiction.
Qed.

Lemma app_same_length {A : Type} (a b t u : list A) :
  List.length a = List.length b -> b ++ u = a ++ t -> a = b.
Proof.
  revert b. induction a as [|x a IH]; intros [|y b] Hl H; cbn in *;
    try discriminate; [reflexivity|].
  injection H as -> H. f_equal. apply IH; [lia | exact H].
Qed.

(** ** The classes of the Dilithium variant *)

(** The factor a call of [blind_message] uses. *)
Lemma blind_message_fields (SHA256 : list byte -> list byte)
    (message : Py.message) (r : option (list byte)) (g : rng) :
  let factor :=
    match r with Some r => r | None => fst (PyBytes.randbytes 32 g) end in
  fst (Dilithium.blind_message SHA256 message r g)
  = {| Dilithium.blinded_msg :=
         PyBytes.hex (SHA256 (Dilithium.encoded message) ++ factor);
       Dilithium.r := PyBytes.hex factor;
       Dilithium.original_message := PyBytes.hex (Dilithium.encoded message);
       Dilithium.message_hash :=
         PyBytes.hex (SHA256 (Dilithium.encoded message)) |}
  /\ snd (Dilithium.blind_message SHA256 message r g)
     = match r with Some _ => g | None => rng_drop 32 g end.
Proof.
  unfold Dilithium.blind_message. destruct r as [r|].
  - split; reflexivity.
  - pose proof (randbytes_length 32 g) as [_ Hg].
    destruct (PyBytes.randbytes 32 g) as [bs g'].
    cbn [fst snd] in *. split; [reflexivity | exact Hg].
Qed.

(** X17: what [blind_message] hands out as hexadecimal text reads back as
    the bytes it stands for: [Signer.sign_blinded] on the text of
    [blinded_msg] signs the digest of the message followed by the blinding
    factor, the texts of [r] and [original_message] read back as the factor
    and the encoded message, and a factor that [blind_message] draws itself
    has 32 bytes, 64 digits in the record. *)
Theorem blinded_text_reads_back (SHA256 : list byte -> list byte)
    (sign_with_input : list byte -> list byte -> result (list byte))
    (private_key : list byte) (message : Py.message)
    (r : option (list byte)) (g : rng) :
  let bd := fst (Dilithium.blind_message SHA256 message r g) in
  let factor :=
    match r with Some r => r | None => fst (PyBytes.randbytes 32 g) end in
  Dilithium.sign_blinded sign_with_input private_key
    (Str (Dilithium.blinded_msg bd))
  = sign_with_input private_key (SHA256 (Dilithium.encoded message) ++ factor)
  /\ Dilithium.bytes_of (Str (Dilithium.r bd)) = Ok factor
  /\ Dilithium.bytes_of (Str (Dilithium.original_message bd))
     = Ok (Dilithium.encoded message)
  /\ List.length (fst (PyBytes.randbytes 32 g)) = 32%nat
  /\ String.length
       (Dilithium.r (fst (Dilithium.blind_message SHA256 message None g)))
     = 64%nat.
Proof.
  intros bd factor.
  destruct (blind_message_fields SHA256 message r g) as [Hbd _].
  fold factor in Hbd. fold bd in Hbd. rewrite Hbd.
  cbn [Dilithium.blinded_msg Dilithium.r Dilithium.original_message].
  unfold Dilithium.sign_blinded, Dilithium.bytes_of.
  rewrite !fromhex_hex. cbn [Py.bind].
  split; [reflexivity|]. split; [reflexivity|]. split; [reflexivity|].
  split; [apply randbytes_length|].
  destruct (blind_message_fields SHA256 message None g) as [Hnone _].
  rewrite Hnone. cbn [Dilithium.r].
  rewrite hex_length, (proj1 (randbytes_length 32 g)). reflexivity.
Qed.

(** X18: the blinded message does not hide the digest.  Its text is the
    text of the digest followed by the text of the factor, whatever the
    factor; so with a hash of fixed digest length, whoever sees the blinded
    message can test a guessed message: the text of the guess's digest is a
    prefix of the blinded message exactly when the guess has the digest of
    the message. *)
Theorem blinded_message_shows_digest (SHA256 : list byte -> list byte)
    (message guess : Py.message) (r : option (list byte)) (g : rng) :
  (forall bs bs', List.length (SHA256 bs) = List.length (SHA256 bs')) ->
  let bd := fst (Dilithium.blind_message SHA256 message r g) in
  Dilithium.blinded_msg bd
  = (Dilithium.message_hash bd ++ Dilithium.r bd)%string
  /\ Dilithium.message_hash bd = PyBytes.hex (SHA256 (Dilithium.encoded message))
  /\ (String.prefix (PyBytes.hex (SHA256 (Dilithium.encoded guess)))
        (Dilithium.blinded_msg bd) = true
      <-> SHA256 (Dilithium.encoded guess)
          = SHA256 (Dilithium.encoded message)).
Proof.
  intros Hlen bd.
  destruct (blind_message_fields SHA256 message r g) as [Hbd _].
  fold bd in Hbd. rewrite Hbd.
  cbn [Dilithium.blinded_msg Dilithium.r Dilithium.message_hash].
  split; [apply hex_app|]. split; [reflexivity|].
  rewrite hex_prefix. split.
  - intros [t Ht]. eapply app_same_length; [apply Hlen | exact Ht].
  - intros ->. eexists. reflexivity.
Qed.

Lemma blinded_message_shows_digest_witness :
  (forall bs bs',
     List.length (short_hash bs) = List.length (short_hash bs'))
  /\ String.prefix (PyBytes.hex (short_hash (Dilithium.encoded (Str "no"))))
       (Dilithium.blinded_msg
          (fst (Dilithium.blind_message short_hash (Str "yes") None
                  (const_rng 7)))) = false.
Proof.
  assert (Hlen : forall bs bs',
            List.length (short_hash bs) = List.length (short_hash bs')).
  { intros bs bs'. unfold short_hash.
    rewrite !length_firstn, !length_app, !repeat_length. lia. }
  split; [exact Hlen|].
  destruct (blinded_message_shows_digest short_hash (Str "yes") (Str "no")
              None (const_rng 7) Hlen) as (_ & _ & Hiff).
  destruct (String.prefix _ _); [|reflexivity].
  destruct Hiff as [Hiff _]. specialize (Hiff eq_refl).
  vm_compute in Hiff. discriminate Hiff.
Defined.

(** X19: blind, sign, unblind and verify with the factor accept.  If the
    library signs every message with the private key and its [verify]
    accepts, with the public key, each signature so made, then the
    signature on the blinded message, left as it is by [unblind_signature],
    passes [verify_blind_signature] for the message and the factor and
    prints nothing: with factor and signature as bytes, and with both as
    the hexadecimal text they travel in. *)
Theorem dilithium_round_trip (SHA256 : list byte -> list byte)
    (sign_with_input : list byte -> list byte -> result (list byte))
    (lib_verify : Py.message -> list byte -> Py.message -> result bool)
    (public_key : Py.message) (private_key : list byte)
    (message : Py.message) (r : option (list byte)) (g : rng) :
  (forall m, exists sig,
     sign_with_input private_key m = Ok sig
     /\ lib_verify public_key m (Bytes sig) = Ok true) ->
  let bd := fst (Dilithium.blind_message SHA256 message r g) in
  exists blind_signature factor,
    Dilithium.sign_blinded sign_with_input private_key
      (Str (Dilithium.blinded_msg bd)) = Ok blind_signature
    /\ Dilithium.bytes_of (Str (Dilithium.r bd)) = Ok factor
    /\ Dilithium.verify_blind_signature SHA256 lib_verify public_key message
         (Bytes (Dilithium.unblind_signature blind_signature factor))
         (Bytes factor) = Ok (true, [])
    /\ Dilithium.verify_blind_signature SHA256 lib_verify public_key
         (Bytes (Dilithium.encoded message))
         (Str (PyBytes.hex
                 (Dilithium.unblind_signature blind_signature
                    (Dilithium.r bd))))
         (Str (Dilithium.r bd)) = Ok (true, []).
Proof.
  intros Hlib bd.
  destruct (blind_message_fields SHA256 message r g) as [Hbd _].
  fold bd in Hbd. rewrite Hbd.
  cbn [Dilithium.blinded_msg Dilithium.r].
  set (factor :=
         match r with Some r => r | None => fst (PyBytes.randbytes 32 g) end).
  destruct (Hlib (SHA256 (Dilithium.encoded message) ++ factor))
    as (sig & Hsig & Hver).
  exists sig, factor.
  unfold Dilithium.sign_blinded, Dilithium.verify_blind_signature,
    Dilithium.unblind_signature, Dilithium.bytes_of.
  rewrite !fromhex_hex. cbn [Py.bind Dilithium.encoded].
  rewrite Hver. cbn [Dilithium.try_verify].
  split; [exact Hsig|]. split; [reflexivity|]. split; reflexivity.
Qed.

Lemma echo_library_correct (key m : list byte) :
  exists sig,
    echo_sign key m = Ok sig /\ echo_verify (Bytes key) m (Bytes sig) = Ok true.
Proof.
  exists (key ++ m). split; [reflexivity|].
  cbn [echo_verify]. rewrite bytes_eqb_refl. reflexivity.
Qed.

Lemma dilithium_round_trip_witness :
  (forall m, exists sig,
     echo_sign ["007"%byte] m = Ok sig
     /\ echo_verify (Bytes ["007"%byte]) m (Bytes sig) = Ok true)
  /\ exists blind_signature factor,
       Dilithium.sign_blinded echo_sign ["007"%byte]
         (Str (Dilithium.blinded_msg
                 (fst (Dilithium.blind_message id_hash (Str "A")
                         (Some ["001"%byte]) (const_rng 0)))))
       = Ok blind_signature
       /\ Dilithium.bytes_of
            (Str (Dilithium.r
                    (fst (Dilithium.blind_message id_hash (Str "A")
                            (Some ["001"%byte]) (const_rng 0)))))
          = Ok factor
       /\ Dilithium.verify_blind_signature id_hash echo_verify
            (Bytes ["007"%byte]) (Str "A")
            (Bytes (Dilithium.unblind_signature blind_signature factor))
            (Bytes factor) = Ok (true, [])
       /\ Dilithium.verify_blind_signature id_hash echo_verify
            (Bytes ["007"%byte])
            (Bytes (Dilithium.encoded (Str "A")))
            (Str (PyBytes.hex
                    (Dilithium.unblind_signature blind_signature
                       (Dilithium.r
                          (fst (Dilithium.blind_message id_hash (Str "A")
                                  (Some ["001"%byte]) (const_rng 0)))))))
            (Str (Dilithium.r
                    (fst (Dilithium.blind_message id_hash (Str "A")
                            (Some ["001"%byte]) (const_rng 0)))))
          = Ok (true, []).
Proof.
  split; [intros m; apply echo_library_correct|].
  exact (dilithium_round_trip id_hash echo_sign echo_verify
           (Bytes ["007"%byte]) ["007"%byte] (Str "A") (Some ["001"%byte])
           (const_rng 0) (echo_library_correct ["007"%byte])).
Defined.


(** ** The scripts of the Dilithium variant *)

Section DilithiumScripts.

Variable SHA256 : list byte -> list byte.
Variable keygen : list byte -> result (list byte * list byte).
Variable sign_with_input : list byte -> list byte -> result (list byte).
Variable lib_verify : Py.message -> list byte -> Py.message -> result bool.

Lemma setup_done (w : DilithiumScript.world) (pk sk : list byte) :
  keygen (fst (PyBytes.randbytes 32 (DilithiumScript.urandom w)))
  = Ok (pk, sk) ->
  DilithiumScript.setup_signer_keys keygen w
  = DilithiumScript.Done (pk, sk) (DilithiumRun.after_setup w pk sk).
Proof.
  intros Hkey.
  pose proof (randbytes_length 32 (DilithiumScript.urandom w)) as [_ Hu].
  unfold DilithiumScript.setup_signer_keys,
    DilithiumScript.generate_dilithium_keys, DilithiumScript.bind,
    DilithiumScript.print, DilithiumScript.emit, DilithiumScript.os_urandom,
    DilithiumScript.call, DilithiumScript.dump, DilithiumScript.ret.
  cbn [DilithiumScript.disk DilithiumScript.stdout DilithiumScript.random
       DilithiumScript.urandom].
  destruct (PyBytes.randbytes 32 (DilithiumScript.urandom w)) as [seed u].
  cbn [fst snd] in Hkey, Hu. rewrite Hkey.
  cbn [DilithiumScript.disk DilithiumScript.stdout DilithiumScript.random
       DilithiumScript.urandom
       DilithiumScript.signer_public_key_file
       DilithiumScript.signer_private_key_file
       DilithiumScript.blind_data_file DilithiumScript.blind_signature_file].
  unfold DilithiumRun.after_setup, DilithiumRun.setup_lines.
  rewrite Hu, <- !app_assoc. reflexivity.
Qed.


Lemma dilithium_phase1_done (w : DilithiumScript.world) (public_key : string) :
  DilithiumScript.signer_public_key_file (DilithiumScript.disk w)
  = Some public_key ->
  DilithiumScript.run_message_owner_phase1 SHA256 w
  = DilithiumScript.Done tt
      (DilithiumRun.after_phase1 w public_key
         (DilithiumRun.blinding SHA256
            (fst (PyBytes.randbytes 32 (DilithiumScript.random w))))).
Proof.
  intros Hpub.
  destruct (blind_message_fields SHA256
              (Str DilithiumScript.original_message) None
              (DilithiumScript.random w)) as [Hbd Hg].
  unfold DilithiumScript.run_message_owner_phase1.
  unfold DilithiumScript.bind at 1. unfold DilithiumScript.try_load.
  rewrite Hpub.
  unfold DilithiumScript.bind, DilithiumScript.print, DilithiumScript.emit,
    DilithiumScript.call_random, DilithiumScript.dump.
  cbn [DilithiumScript.disk DilithiumScript.stdout DilithiumScript.random
       DilithiumScript.urandom].
  destruct (Dilithium.blind_message SHA256
              (Str DilithiumScript.original_message) None
              (DilithiumScript.random w)) as [bd g].
  cbn [fst snd] in Hbd, Hg. cbn [Dilithium.encoded] in Hbd.
  fold (DilithiumRun.blinding SHA256
          (fst (PyBytes.randbytes 32 (DilithiumScript.random w)))) in Hbd.
  rewrite Hbd, Hg.
  cbn [DilithiumScript.disk DilithiumScript.stdout DilithiumScript.random
       DilithiumScript.urandom
       DilithiumScript.signer_public_key_file
       DilithiumScript.signer_private_key_file
       DilithiumScript.blind_data_file DilithiumScript.blind_signature_file].
  unfold DilithiumRun.after_phase1, DilithiumRun.phase1_lines.
  rewrite <- !app_assoc. reflexivity.
Qed.

Lemma dilithium_phase1_no_key (w : DilithiumScript.world) :
  DilithiumScript.signer_public_key_file (DilithiumScript.disk w) = None ->
  DilithiumScript.run_message_owner_phase1 SHA256 w
  = DilithiumScript.Done tt (with_output w DilithiumRun.no_key_lines).
Proof.
  intros Hpub. unfold DilithiumScript.run_message_owner_phase1.
  unfold DilithiumScript.bind at 1. unfold DilithiumScript.try_load.
  rewrite Hpub.
  unfold DilithiumScript.bind, DilithiumScript.print, DilithiumScript.emit.
  cbn [DilithiumScript.disk DilithiumScript.stdout DilithiumScript.random
       DilithiumScript.urandom].
  unfold with_output, DilithiumRun.no_key_lines.
  rewrite <- !app_assoc. reflexivity.
Qed.

Lemma dilithium_signer_done (w : DilithiumScript.world)
    (key_text : string) (sk : list byte)
    (data : DilithiumScript.blind_data_json) (m sig : list byte) :
  DilithiumScript.signer_private_key_file (DilithiumScript.disk w)
  = Some key_text ->
  PyBytes.fromhex key_text = Ok sk ->
  DilithiumScript.blind_data_file (DilithiumScript.disk w) = Some data ->
  PyBytes.fromhex (DilithiumScript.blinded_msg data) = Ok m ->
  sign_with_input sk m = Ok sig ->
  DilithiumScript.run_signer sign_with_input w
  = DilithiumScript.Done tt
      (DilithiumRun.after_signer w (DilithiumScript.blinded_msg data) sig).
Proof.
  intros Hkey Hsk Hdata Hm Hsig. unfold DilithiumScript.run_signer.
  unfold DilithiumScript.bind, DilithiumScript.print, DilithiumScript.emit,
    DilithiumScript.load, DilithiumScript.call, DilithiumScript.dump.
  cbn [DilithiumScript.disk DilithiumScript.stdout DilithiumScript.random
       DilithiumScript.urandom].
  rewrite Hkey, Hsk.
  cbn [DilithiumScript.disk DilithiumScript.stdout DilithiumScript.random
       DilithiumScript.urandom].
  rewrite Hdata. unfold Dilithium.sign_blinded, Dilithium.bytes_of.
  rewrite Hm. cbn [Py.bind]. rewrite Hsig.
  cbn [DilithiumScript.disk DilithiumScript.stdout DilithiumScript.random
       DilithiumScript.urandom].
  unfold DilithiumRun.after_signer, DilithiumRun.signer_lines.
  rewrite <- !app_assoc. reflexivity.
Qed.

Lemma dilithium_phase2_done (w : DilithiumScript.world)
    (data : DilithiumScript.blind_data_json) (factor pk : list byte)
    (signature_text : string) (sig om : list byte)
    (b : bool) (printed : list Script.line) :
  DilithiumScript.blind_data_file (DilithiumScript.disk w) = Some data ->
  PyBytes.fromhex (DilithiumScript._secret_r data) = Ok factor ->
  PyBytes.fromhex (DilithiumScript.public_key data) = Ok pk ->
  DilithiumScript.blind_signature_file (DilithiumScript.disk w)
  = Some signature_text ->
  PyBytes.fromhex signature_text = Ok sig ->
  PyBytes.fromhex (DilithiumScript._original_message data) = Ok om ->
  Dilithium.try_verify (lib_verify (Bytes pk) (SHA256 om ++ factor) (Bytes sig))
  = Ok (b, printed) ->
  DilithiumScript.run_message_owner_phase2 SHA256 lib_verify w
  = DilithiumScript.Done tt
      (with_output w (DilithiumRun.phase2_lines sig printed b)).
Proof.
  intros Hdata Hr Hpk Hsigf Hsig Hom Hver.
  unfold DilithiumScript.run_message_owner_phase2.
  unfold DilithiumScript.bind, DilithiumScript.print, DilithiumScript.emit,
    DilithiumScript.load, DilithiumScript.call.
  cbn [DilithiumScript.disk DilithiumScript.stdout DilithiumScript.random
       DilithiumScript.urandom].
  rewrite Hdata, Hr, Hpk.
  cbn [DilithiumScript.disk DilithiumScript.stdout DilithiumScript.random
       DilithiumScript.urandom].
  rewrite Hsigf, Hsig.
  cbn [DilithiumScript.disk DilithiumScript.stdout DilithiumScript.random
       DilithiumScript.urandom].
  rewrite Hom.
  unfold Dilithium.verify_blind_signature, Dilithium.unblind_signature,
    Dilithium.bytes_of.
  cbn [Py.bind Dilithium.encoded]. rewrite Hver.
  cbn [DilithiumScript.disk DilithiumScript.stdout DilithiumScript.random
       DilithiumScript.urandom].
  unfold with_output, DilithiumRun.phase2_lines.
  rewrite <- !app_assoc. reflexivity.
Qed.

End DilithiumScripts.

(** X21: the four scripts of the Dilithium variant in their order.  If the
    library's key generation returns [(pk, sk)] for the seed drawn, signs
    every message with [sk] and accepts with [pk] each signature so made,
    then [setup_signer_keys], [run_message_owner_phase1], [run_signer] and
    [run_message_owner_phase2] all run to their end, whatever files and
    output were there before; the four files then hold the two keys, the
    blinded message with the factor and the message, and the signature of
    digest-then-factor, all as hexadecimal text, and the last line printed
    is [Signature is valid: True]. *)
Theorem dilithium_scripts_round_trip (SHA256 : list byte -> list byte)
    (keygen : list byte -> result (list byte * list byte))
    (sign_with_input : list byte -> list byte -> result (list byte))
    (lib_verify : Py.message -> list byte -> Py.message -> result bool)
    (w : DilithiumScript.world) (pk sk : list byte) :
  keygen (fst (PyBytes.randbytes 32 (DilithiumScript.urandom w)))
  = Ok (pk, sk) ->
  (forall m, exists sig,
     sign_with_input sk m = Ok sig
     /\ lib_verify (Bytes pk) m (Bytes sig) = Ok true) ->
  exists (sig : list byte) (w1 w2 w3 w4 : DilithiumScript.world),
    DilithiumScript.setup_signer_keys keygen w
    = DilithiumScript.Done (pk, sk) w1
    /\ DilithiumScript.run_message_owner_phase1 SHA256 w1
       = DilithiumScript.Done tt w2
    /\ DilithiumScript.run_signer sign_with_input w2
       = DilithiumScript.Done tt w3
    /\ DilithiumScript.run_message_owner_phase2 SHA256 lib_verify w3
       = DilithiumScript.Done tt w4
    /\ sign_with_input sk
         (SHA256 (encode DilithiumScript.original_message)
          ++ fst (PyBytes.randbytes 32 (DilithiumScript.random w)))
       = Ok sig
    /\ DilithiumScript.disk w4
       = {| DilithiumScript.signer_public_key_file := Some (PyBytes.hex pk);
            DilithiumScript.signer_private_key_file := Some (PyBytes.hex sk);
            DilithiumScript.blind_data_file :=
              Some {| DilithiumScript.blinded_msg :=
                        PyBytes.hex
                          (SHA256 (encode DilithiumScript.original_message)
                           ++ fst (PyBytes.randbytes 32
                                     (DilithiumScript.random w)));
                      DilithiumScript.public_key := PyBytes.hex pk;
                      DilithiumScript._secret_r :=
                        PyBytes.hex
                          (fst (PyBytes.randbytes 32
                                  (DilithiumScript.random w)));
                      DilithiumScript._original_message :=
                        PyBytes.hex
                          (encode DilithiumScript.original_message) |};
            DilithiumScript.blind_signature_file := Some (PyBytes.hex sig) |}
    /\ last (DilithiumScript.stdout w4) []
       = [Script.Text "Signature is valid: "; Script.Flag true].
Proof.
  intros Hkey Hlib.
  set (factor := fst (PyBytes.randbytes 32 (DilithiumScript.random w))).
  set (bd := DilithiumRun.blinding SHA256 factor).
  destruct (Hlib (SHA256 (encode DilithiumScript.original_message) ++ factor))
    as (sig & Hsig & Hver).
  set (w1 := DilithiumRun.after_setup w pk sk).
  set (w2 := DilithiumRun.after_phase1 w1 (PyBytes.hex pk) bd).
  set (w3 := DilithiumRun.after_signer w2 (Dilithium.blinded_msg bd) sig).
  set (w4 := with_output w3 (DilithiumRun.phase2_lines sig [] true)).
  exists sig, w1, w2, w3, w4.
  split; [exact (setup_done keygen w pk sk Hkey)|].
  split; [exact (dilithium_phase1_done SHA256 w1 (PyBytes.hex pk) eq_refl)|].
  split.
  { apply (dilithium_signer_done sign_with_input w2 (PyBytes.hex sk) sk
             {| DilithiumScript.blinded_msg := Dilithium.blinded_msg bd;
                DilithiumScript.public_key := PyBytes.hex pk;
                DilithiumScript._secret_r := Dilithium.r bd;
                DilithiumScript._original_message :=
                  Dilithium.original_message bd |}
             (SHA256 (encode DilithiumScript.original_message) ++ factor) sig);
      [reflexivity | apply fromhex_hex | reflexivity | apply fromhex_hex
      | exact Hsig]. }
  split.
  { apply (dilithium_phase2_done SHA256 lib_verify w3
             {| DilithiumScript.blinded_msg := Dilithium.blinded_msg bd;
                DilithiumScript.public_key := PyBytes.hex pk;
                DilithiumScript._secret_r := Dilithium.r bd;
                DilithiumScript._original_message :=
                  Dilithium.original_message bd |}
             factor pk (PyBytes.hex sig) sig
             (encode DilithiumScript.original_message) true []);
      [reflexivity | apply fromhex_hex | apply fromhex_hex | reflexivity
      | apply fromhex_hex | apply fromhex_hex |].
    rewrite Hver. reflexivity. }
  split; [exact Hsig|]. split; [reflexivity|].
  unfold w4, with_output, DilithiumRun.phase2_lines.
  cbn [DilithiumScript.stdout app].
  change [[Script.Text
             (Script.nl ++ "=== Message Owner Phase 2: Unblind Signature ===")];
          [Script.Text "Received blind signature: ";
           Script.Text (PyBytes.hex sig)];
          [Script.Text (Script.nl ++ "Final signature: ");
           Script.Text (PyBytes.hex sig)];
          [Script.Text (Script.nl ++ "Validation results:")];
          [Script.Text "Signature is valid: "; Script.Flag true]]
    with ([[Script.Text
              (Script.nl ++ "=== Message Owner Phase 2: Unblind Signature ===")];
           [Script.Text "Received blind signature: ";
            Script.Text (PyBytes.hex sig)];
           [Script.Text (Script.nl ++ "Final signature: ");
            Script.Text (PyBytes.hex sig)];
           [Script.Text (Script.nl ++ "Validation results:")]]
          ++ [[Script.Text "Signature is valid: "; Script.Flag true]]).
  rewrite app_assoc. apply last_last.
Qed.

Lemma dilithium_scripts_round_trip_witness :
  echo_keygen
    (fst (PyBytes.randbytes 32
            (DilithiumScript.urandom
               (empty_world (const_rng 0) (const_rng 1)))))
  = Ok (fst (PyBytes.randbytes 32 (const_rng 1)),
        fst (PyBytes.randbytes 32 (const_rng 1)))
  /\ (forall m, exists sig,
        echo_sign (fst (PyBytes.randbytes 32 (const_rng 1))) m = Ok sig
        /\ echo_verify (Bytes (fst (PyBytes.randbytes 32 (const_rng 1)))) m
             (Bytes sig) = Ok true)
  /\ exists w4 : DilithiumScript.world,
       last (DilithiumScript.stdout w4) []
       = [Script.Text "Signature is valid: "; Script.Flag true].
Proof.
  split; [reflexivity|].
  split; [apply echo_library_correct|].
  destruct (dilithium_scripts_round_trip id_hash echo_keygen echo_sign
              echo_verify (empty_world (const_rng 0) (const_rng 1))
              (fst (PyBytes.randbytes 32 (const_rng 1)))
              (fst (PyBytes.randbytes 32 (const_rng 1)))
              eq_refl
              (echo_library_correct (fst (PyBytes.randbytes 32 (const_rng 1)))))
    as (sig & w1 & w2 & w3 & w4 & _ & _ & _ & _ & _ & _ & Hlast).
  exists w4. exact Hlast.
Defined.


(** X23: files that are missing or do not hold hexadecimal text.  Without
    [signer_public_key.json] the first phase prints two lines and ends in
    the ordinary way, with no file written and nothing drawn.  The other
    scripts have no such handler: [run_signer] stops on
    [FileNotFoundError] after its banner when the private key file is
    missing, the second phase stops at once when [blind_data.json] is
    missing, and it stops on the [ValueError] of [bytes.fromhex], before
    anything is printed, when the stored factor is not hexadecimal text.
    The first phase copies the text of the public key as it finds it. *)
Theorem dilithium_missing_files (SHA256 : list byte -> list byte)
    (sign_with_input : list byte -> list byte -> result (list byte))
    (lib_verify : Py.message -> list byte -> Py.message -> result bool)
    (w : DilithiumScript.world) :
  (DilithiumScript.signer_public_key_file (DilithiumScript.disk w) = None ->
   DilithiumScript.run_message_owner_phase1 SHA256 w
   = DilithiumScript.Done tt
       {| DilithiumScript.disk := DilithiumScript.disk w;
          DilithiumScript.stdout :=
            DilithiumScript.stdout w
            ++ [[Script.Text "Error: signer_public_key.json not found!"];
                [Script.Text
                   "Please run 'python signer.py setup' first to generate signer keys."]];
          DilithiumScript.random := DilithiumScript.random w;
          DilithiumScript.urandom := DilithiumScript.urandom w |})
  /\ (forall public_key,
        DilithiumScript.signer_public_key_file (DilithiumScript.disk w)
        = Some public_key ->
        exists w',
          DilithiumScript.run_message_owner_phase1 SHA256 w
          = DilithiumScript.Done tt w'
          /\ option_map DilithiumScript.public_key
               (DilithiumScript.blind_data_file (DilithiumScript.disk w'))
             = Some public_key)
  /\ (DilithiumScript.signer_private_key_file (DilithiumScript.disk w) = None ->
      DilithiumScript.run_signer sign_with_input w
      = DilithiumScript.Crash
          (Script.FileNotFoundError "signer_private_key.json")
          (with_output w
             [[Script.Text (Script.nl ++ "=== Signer Process ===")]]))
  /\ (DilithiumScript.blind_data_file (DilithiumScript.disk w) = None ->
      DilithiumScript.run_message_owner_phase2 SHA256 lib_verify w
      = DilithiumScript.Crash (Script.FileNotFoundError "blind_data.json") w)
  /\ (forall data e,
        DilithiumScript.blind_data_file (DilithiumScript.disk w) = Some data ->
        PyBytes.fromhex (DilithiumScript._secret_r data) = Raise e ->
        DilithiumScript.run_message_owner_phase2 SHA256 lib_verify w
        = DilithiumScript.Crash (Script.Exn e) w).
Proof.
  split; [|split; [|split; [|split]]].
  - intros Hpub. exact (dilithium_phase1_no_key SHA256 w Hpub).
  - intros public_key Hpub. eexists.
    split; [exact (dilithium_phase1_done SHA256 w public_key Hpub)|].
    reflexivity.
  - intros Hkey. unfold DilithiumScript.run_signer.
    unfold DilithiumScript.bind, DilithiumScript.print, DilithiumScript.emit,
      DilithiumScript.load.
    cbn [DilithiumScript.disk DilithiumScript.stdout DilithiumScript.random
         DilithiumScript.urandom].
    rewrite Hkey. reflexivity.
  - intros Hdata. unfold DilithiumScript.run_message_owner_phase2.
    unfold DilithiumScript.bind, DilithiumScript.load.
    rewrite Hdata. reflexivity.
  - intros data e Hdata Hr. unfold DilithiumScript.run_message_owner_phase2.
    unfold DilithiumScript.bind, DilithiumScript.load, DilithiumScript.call.
    rewrite Hdata, Hr. reflexivity.
Qed.
